(** * videotube-Backend: the account controller

    A shallow embedding of [src/controllers/user.controller.js] and of the
    error class [ApiError].  Handlers are functions in a state-and-exception
    monad over a [World] (the MongoDB collections, the clock and the trace of
    externally visible effects).  Aggregation pipelines are kept as the data
    the controller builds and are run by a small model of the [$match],
    [$lookup], [$addFields] and [$project] stages.

    JavaScript strings are modelled as strings of 8-bit code units; the
    functions [toLowerCase] and [trim] act on the ASCII range. *)

From Stdlib Require Import String Ascii List Bool Arith PeanoNat Permutation.
Import ListNotations.
Open Scope string_scope.
Open Scope list_scope.
Open Scope nat_scope.

Set Implicit Arguments.
Local Set Warnings "-register-all".

(** ** JavaScript strings *)

Module Js.

Definition is_lower (c : ascii) : bool :=
  let n := nat_of_ascii c in (97 <=? n) && (n <=? 122).

Definition is_upper (c : ascii) : bool :=
  let n := nat_of_ascii c in (65 <=? n) && (n <=? 90).

Definition is_digit (c : ascii) : bool :=
  let n := nat_of_ascii c in (48 <=? n) && (n <=? 57).

(** White space and line terminators removed by [String.prototype.trim]
    (tab, line feed, vertical tab, form feed, carriage return, space). *)
Definition is_space (c : ascii) : bool :=
  let n := nat_of_ascii c in ((9 <=? n) && (n <=? 13)) || (n =? 32).

(** Line terminators, which the pattern character [.] does not match. *)
Definition is_line_terminator (c : ascii) : bool :=
  let n := nat_of_ascii c in (n =? 10) || (n =? 13).

Definition lower_char (c : ascii) : ascii :=
  if is_upper c then ascii_of_nat (nat_of_ascii c + 32) else c.

Fixpoint toLowerCase (s : string) : string :=
  match s with
  | EmptyString => EmptyString
  | String c r => String (lower_char c) (toLowerCase r)
  end.

Fixpoint trimStart (s : string) : string :=
  match s with
  | EmptyString => EmptyString
  | String c r => if is_space c then trimStart r else s
  end.

Fixpoint all_space (s : string) : bool :=
  match s with
  | EmptyString => true
  | String c r => is_space c && all_space r
  end.

Fixpoint trimEnd (s : string) : string :=
  match s with
  | EmptyString => EmptyString
  | String c r => if all_space s then EmptyString else String c (trimEnd r)
  end.

Definition trim (s : string) : string := trimEnd (trimStart s).

(** Truthiness of a string value: every string but the empty one. *)
Definition truthy (s : string) : bool := negb (s =? "")%string.

(** Truthiness of a value that is a string or [undefined]/[null]. *)
Definition truthy_opt (o : option string) : bool :=
  match o with Some s => truthy s | None => false end.

Fixpoint chars (s : string) : list ascii :=
  match s with
  | EmptyString => []
  | String c r => c :: chars r
  end.

End Js.

(** ** Values: BSON documents and JSON bodies *)

Definition ObjectId := nat.

Inductive value : Type :=
| VUndefined
| VNull
| VBool (b : bool)
| VNum (n : nat)
| VStr (s : string)
| VId (i : ObjectId)
| VArr (l : list value)
| VObj (fields : list (string * value)).

Definition doc := list (string * value).

Fixpoint value_eqb (a b : value) {struct a} : bool :=
  match a, b with
  | VUndefined, VUndefined => true
  | VNull, VNull => true
  | VBool x, VBool y => Bool.eqb x y
  | VNum x, VNum y => x =? y
  | VStr x, VStr y => (x =? y)%string
  | VId x, VId y => x =? y
  | VArr l, VArr l' =>
      (fix go (l l' : list value) {struct l} : bool :=
         match l, l' with
         | [], [] => true
         | x :: xs, y :: ys => value_eqb x y && go xs ys
         | _, _ => false
         end) l l'
  | VObj d, VObj d' =>
      (fix go (d d' : list (string * value)) {struct d} : bool :=
         match d, d' with
         | [], [] => true
         | (k, x) :: xs, (k', y) :: ys =>
             (k =? k')%string && value_eqb x y && go xs ys
         | _, _ => false
         end) d d'
  | _, _ => false
  end.

(** Property access [d[k]]: [None] when the document has no such field. *)
Fixpoint field (k : string) (d : doc) : option value :=
  match d with
  | [] => None
  | (k', v) :: r => if (k =? k')%string then Some v else field k r
  end.

Definition has_field (k : string) (d : doc) : bool :=
  match field k d with Some _ => true | None => false end.

Fixpoint remove_field (k : string) (d : doc) : doc :=
  match d with
  | [] => []
  | (k', v) :: r =>
      if (k =? k')%string then remove_field k r else (k', v) :: remove_field k r
  end.

(** Assignment [d[k] = v]: an existing field keeps its place. *)
Fixpoint set_field (k : string) (v : value) (d : doc) : doc :=
  match d with
  | [] => [(k, v)]
  | (k', v') :: r =>
      if (k =? k')%string then (k, v) :: r else (k', v') :: set_field k v r
  end.

Definition mem_string (k : string) (l : list string) : bool :=
  existsb (fun k' => (k =? k')%string) l.

(** ** The aggregation framework

    A pipeline is the array of stage objects the controller hands to
    [User.aggregate]; the stages and operators are the ones the controller
    uses.  [run_stage] follows the MongoDB manual: [$match] and [$lookup]
    compare by equality, an array on either side matching through any of its
    elements, and a field that is absent counting as [null]; [$lookup]
    scans the [from] collection, so the joined array comes in the order of
    that collection. *)

Module Agg.

Inductive expr : Type :=
| Const (v : value)
| Path (p : list string)
| Size (e : expr)
| In_ (e arr : expr)
| Cond (c t e : expr)
| First (e : expr).

Inductive stage : Type :=
| Match (k : string) (v : value)
| Lookup (from localField foreignField as_ : string) (pipeline : list stage)
| AddFields (fs : list (string * expr))
| Project (keep : list string).

(** A field path ["$a.b"]: through an array, the values of [b] in its
    elements. *)
Fixpoint resolve (p : list string) (v : value) : option value :=
  match p with
  | [] => Some v
  | k :: p' =>
      match v with
      | VObj d =>
          match field k d with
          | Some x => resolve p' x
          | None => None
          end
      | VArr l =>
          Some (VArr (flat_map
                        (fun e =>
                           match e with
                           | VObj d =>
                               match field k d with
                               | Some x =>
                                   match resolve p' x with
                                   | Some y => [y]
                                   | None => []
                                   end
                               | None => []
                               end
                           | _ => []
                           end) l))
      | _ => None
      end
  end.

Definition truthy (o : option value) : bool :=
  match o with
  | None | Some VUndefined | Some VNull | Some (VBool false) | Some (VNum 0) => false
  | Some _ => true
  end.

(** [None] is an error that aborts the pipeline; [Some None] is a missing
    value. *)
Fixpoint eval (e : expr) (d : doc) : option (option value) :=
  match e with
  | Const v => Some (Some v)
  | Path p => Some (resolve p (VObj d))
  | Size a =>
      match eval a d with
      | Some (Some (VArr l)) => Some (Some (VNum (length l)))
      | _ => None
      end
  | In_ x a =>
      match eval x d, eval a d with
      | Some vx, Some (Some (VArr l)) =>
          let v := match vx with Some v => v | None => VNull end in
          Some (Some (VBool (existsb (value_eqb v) l)))
      | _, _ => None
      end
  | Cond c t f =>
      match eval c d with
      | Some vc => if truthy vc then eval t d else eval f d
      | None => None
      end
  | First a =>
      match eval a d with
      | Some (Some (VArr [])) => Some None
      | Some (Some (VArr (x :: _))) => Some (Some x)
      | Some None | Some (Some VNull) | Some (Some VUndefined) => Some (Some VNull)
      | _ => None
      end
  end.

(** The values a field offers to an equality comparison. *)
Definition candidates (o : option value) : list value :=
  match o with
  | Some (VArr l) => l
  | Some v => [v]
  | None => [VNull]
  end.

Definition match_field (o : option value) (v : value) : bool :=
  existsb (value_eqb v) (candidates o).

Definition join_on (local foreign : option value) : bool :=
  existsb (fun a => existsb (value_eqb a) (candidates foreign)) (candidates local).

Definition project (keep : list string) (d : doc) : doc :=
  filter (fun kv => mem_string (fst kv) ("_id" :: keep)) d.

(** Every new field is computed from the incoming document; a missing
    result leaves the field out. *)
Fixpoint add_fields (fs : list (string * expr)) (src acc : doc) : option doc :=
  match fs with
  | [] => Some acc
  | (k, e) :: r =>
      match eval e src with
      | Some (Some v) => add_fields r src (set_field k v acc)
      | Some None => add_fields r src (remove_field k acc)
      | None => None
      end
  end.

Fixpoint traverse {A B} (f : A -> option B) (l : list A) : option (list B) :=
  match l with
  | [] => Some []
  | x :: r =>
      match f x, traverse f r with
      | Some y, Some ys => Some (y :: ys)
      | _, _ => None
      end
  end.

Section Run.

Variable collection : string -> list doc.

Fixpoint run_stage (s : stage) (input : list doc) {struct s} : option (list doc) :=
  match s with
  | Match k v => Some (filter (fun d => match_field (field k d) v) input)
  | Lookup from localField foreignField as_ pipeline =>
      traverse
        (fun d =>
           let joined :=
             filter (fun f => join_on (field localField d) (field foreignField f))
                    (collection from) in
           match
             (fix run (p : list stage) (ds : list doc) {struct p} : option (list doc) :=
                match p with
                | [] => Some ds
                | s' :: p' =>
                    match run_stage s' ds with
                    | Some ds' => run p' ds'
                    | None => None
                    end
                end) pipeline joined
           with
           | Some out => Some (set_field as_ (VArr (map VObj out)) d)
           | None => None
           end)
        input
  | AddFields fs => traverse (fun d => add_fields fs d d) input
  | Project keep => Some (map (project keep) input)
  end.

Fixpoint run_pipeline (p : list stage) (ds : list doc) : option (list doc) :=
  match p with
  | [] => Some ds
  | s :: p' =>
      match run_stage s ds with
      | Some ds' => run_pipeline p' ds'
      | None => None
      end
  end.

End Run.

End Agg.

(** ** The collections *)

(** Modelled from the spec: the account schema ([models/user.model.js] is
    not among the sources).  The fields are those of the spec's Account;
    [password] holds the hash, [refreshToken] is [None] when the field is
    unset, [watchHistory] is the array of video identifiers. *)
Record User : Type := mkUser
  { _id : ObjectId;
    username : string;
    email : string;
    fullName : string;
    avatar : string;
    coverImage : string;
    password : string;
    refreshToken : option string;
    watchHistory : list ObjectId }.

(** Modelled from the spec: a subscription edge (the schema is not among
    the sources). *)
Record Subscription : Type := mkSubscription
  { sub_id : ObjectId;
    subscriber : ObjectId;
    channel : ObjectId }.

(** Modelled from the spec: a video, known by its identifier and its owner
    (the schema is not among the sources). *)
Record Video : Type := mkVideo
  { video_id : ObjectId;
    owner : ObjectId }.

Definition userDoc (u : User) : doc :=
  [ ("_id", VId (_id u));
    ("username", VStr (username u));
    ("email", VStr (email u));
    ("fullName", VStr (fullName u));
    ("avatar", VStr (avatar u));
    ("coverImage", VStr (coverImage u));
    ("watchHistory", VArr (map VId (watchHistory u)));
    ("password", VStr (password u)) ]
  ++ match refreshToken u with
     | Some t => [("refreshToken", VStr t)]
     | None => []
     end.

Definition subscriptionDoc (s : Subscription) : doc :=
  [ ("_id", VId (sub_id s));
    ("subscriber", VId (subscriber s));
    ("channel", VId (channel s)) ].

Definition videoDoc (v : Video) : doc :=
  [ ("_id", VId (video_id v));
    ("owner", VId (owner v)) ].

(** ** Errors and responses *)

(** What a handler can throw: an instance of the class [ApiError], or an
    error of the runtime or of a library (a [ReferenceError], a [TypeError],
    a driver error).  Of an [ApiError], [errors] is [None] for the default
    empty array and holds the error the constructor was given otherwise;
    [data] is always [null] and [success] always [false]; the stack trace
    is left out. *)
Inductive exn : Type :=
| ApiError (statusCode : nat) (message : string) (errors : option exn)
| Native (name message : string).

Definition exn_message (e : exn) : string :=
  match e with
  | ApiError _ m _ => m
  | Native _ m => m
  end.

Definition exn_data (e : exn) : value := VNull.

Definition exn_success (e : exn) : bool := false.

(** The success envelope built by [new ApiResponse(statusCode, data, message)]. *)
Record ApiResponse : Type := mkApiResponse
  { res_statusCode : nat;
    data : value;
    res_message : string }.

(** [res.cookie(name, value, options)] *)
Record Cookie : Type := mkCookie
  { cookie_name : string;
    cookie_value : value;
    cookie_options : doc }.

(** What [res.status(..).cookie(..).clearCookie(..).json(..)] sends. *)
Record Response : Type := mkResponse
  { status : nat;
    cookies : list Cookie;
    clearedCookies : list (string * doc);
    json : ApiResponse }.

(** A field of the [data] of the answer. *)
Definition body_field (k : string) (r : Response) : value :=
  match data (json r) with
  | VObj d =>
      match field k d with
      | Some v => v
      | None => VUndefined
      end
  | _ => VUndefined
  end.

(** ** The world and the handler monad *)

Inductive event : Type :=
| Uploaded (path : string)
| Deleted (url : string)
| DbWrite (u : User).

Record World : Type := mkWorld
  { users : list User;
    subscriptions : list Subscription;
    videos : list Video;
    now : nat;
    trace : list event }.

Definition collection (w : World) (name : string) : list doc :=
  if (name =? "users")%string then map userDoc (users w)
  else if (name =? "subscriptions")%string then map subscriptionDoc (subscriptions w)
  else if (name =? "videos")%string then map videoDoc (videos w)
  else [].

Inductive outcome (A : Type) : Type :=
| Return (a : A)
| Throw (e : exn).
Arguments Return {A} a.
Arguments Throw {A} e.

(** The status code a request fails with, when it fails with an
    [ApiError]. *)
Definition failure_status {A} (o : outcome A) : option nat :=
  match o with
  | Throw (ApiError code _ _) => Some code
  | _ => None
  end.

Definition M (A : Type) : Type := World -> outcome A * World.

Definition ret {A} (a : A) : M A := fun w => (Return a, w).

Definition throw {A} (e : exn) : M A := fun w => (Throw e, w).

Definition bind {A B} (m : M A) (k : A -> M B) : M B :=
  fun w =>
    match m w with
    | (Return a, w') => k a w'
    | (Throw e, w') => (Throw e, w')
    end.

(** [try { m } catch (error) { h error }]: effects made before the throw
    stay. *)
Definition try_catch {A} (m : M A) (h : exn -> M A) : M A :=
  fun w =>
    match m w with
    | (Return a, w') => (Return a, w')
    | (Throw e, w') => h e w'
    end.

Definition get_world : M World := fun w => (Return w, w).

Definition emit (e : event) : M unit :=
  fun w => (Return tt, mkWorld (users w) (subscriptions w) (videos w) (now w)
                               (trace w ++ [e])).

Definition put_users (us : list User) : M unit :=
  fun w => (Return tt, mkWorld us (subscriptions w) (videos w) (now w) (trace w)).

Declare Scope handler_scope.
Delimit Scope handler_scope with handler.
Notation "x <- m ;; k" := (bind m (fun x => k))
  (at level 100, m at next level, right associativity) : handler_scope.
Notation "m ;;; k" := (bind m (fun _ => k))
  (at level 100, right associativity) : handler_scope.
Open Scope handler_scope.

(** [throw new ApiError(code, msg)] *)
Definition throwApi {A} (code : nat) (msg : string) : M A :=
  throw (ApiError code msg None).

(** [if (c) throw e;] *)
Definition throw_if (c : bool) (code : nat) (msg : string) : M unit :=
  if c then throwApi code msg else ret tt.

(** ** Collaborators outside the controller

    The methods the account model adds to a document (password check,
    hashing before a save, token signing), the token library, the process
    environment and the object storage.  None of them is among the sources;
    the controller is verified against any implementation of them. *)
Class Collaborators : Type :=
  { (** [user.isPasswordCorrect(candidate)], given the stored hash *)
    isPasswordCorrect : string -> string -> bool;
    (** the hash stored for a password when a document is saved *)
    hashPassword : string -> string;
    (** [user.generateAccessToken()] and [user.generateRefreshToken()], at a
        given time *)
    generateAccessToken : User -> nat -> string;
    generateRefreshToken : User -> nat -> string;
    (** [jwt.verify(token, secret)]: the [_id] of the payload, [None] when
        it throws *)
    jwt_verify : string -> option string -> option ObjectId;
    (** [process.env] *)
    process_env : string -> option string;
    (** the [url] of the asset [uploadOnCloudinary] answers with, [None] for
        [null] *)
    cloudinary_upload : string -> option string }.

(** ** The account model [User] *)

Module UserModel.

(** Modelled from the spec: username and email are case-folded
    ([models/user.model.js] is not among the sources).  The model folds
    them in the documents it writes and in the filters it is queried
    with. *)
Definition schema_username (s : string) : string := Js.toLowerCase s.
Definition schema_email (s : string) : string := Js.toLowerCase s.

Inductive query : Type :=
| ByUsername (v : string)
| ByEmail (v : string)
| Or (fs : list query).

Fixpoint matches (f : query) (u : User) {struct f} : bool :=
  match f with
  | ByUsername v => (username u =? schema_username v)%string
  | ByEmail v => (email u =? schema_email v)%string
  | Or fs =>
      (fix any (l : list query) : bool :=
         match l with
         | [] => false
         | g :: r => matches g u || any r
         end) fs
  end.

Definition findOne (f : query) : M (option User) :=
  fun w => (Return (find (matches f) (users w)), w).

Definition findById (id : ObjectId) : M (option User) :=
  fun w => (Return (find (fun u => _id u =? id) (users w)), w).

(** Modelled from the spec: the uniqueness constraint on username and
    email, kept by the store on every write. *)
Definition collides (u : User) (others : list User) : bool :=
  existsb (fun x => negb (_id x =? _id u)
                    && ((username x =? username u)%string
                        || (email x =? email u)%string)) others.

Definition duplicate_key : exn :=
  Native "MongoServerError" "E11000 duplicate key error".

Definition replace (u : User) (us : list User) : list User :=
  map (fun x => if _id x =? _id u then u else x) us.

Definition write (u : User) : M unit :=
  w <- get_world ;;
  put_users (replace u (users w)) ;;; emit (DbWrite u).

Definition fresh_id (us : list User) : ObjectId :=
  S (fold_right Nat.max 0 (map _id us)).

Record fields : Type := mkFields
  { new_username : string;
    new_email : string;
    new_fullName : string;
    new_avatar : string;
    new_coverImage : string;
    new_password : string }.

Definition create {C : Collaborators} (f : fields) : M User :=
  w <- get_world ;;
  let u := mkUser (fresh_id (users w))
                  (schema_username (new_username f))
                  (schema_email (new_email f))
                  (new_fullName f) (new_avatar f) (new_coverImage f)
                  (hashPassword (new_password f)) None [] in
  if collides u (users w) then throw duplicate_key
  else (put_users (users w ++ [u]) ;;; emit (DbWrite u) ;;; ret u).

(** [user.save({ validateBeforeSave: false })] *)
Definition save (u : User) : M unit := write u.

Inductive update : Type :=
| SetFullName (v : string)
| SetUsername (v : string)
| SetAvatar (v : string)
| SetCoverImage (v : string)
| UnsetRefreshToken.

Definition apply (up : update) (u : User) : User :=
  match up with
  | SetFullName v =>
      mkUser (_id u) (username u) (email u) v (avatar u) (coverImage u)
             (password u) (refreshToken u) (watchHistory u)
  | SetUsername v =>
      mkUser (_id u) (schema_username v) (email u) (fullName u) (avatar u)
             (coverImage u) (password u) (refreshToken u) (watchHistory u)
  | SetAvatar v =>
      mkUser (_id u) (username u) (email u) (fullName u) v (coverImage u)
             (password u) (refreshToken u) (watchHistory u)
  | SetCoverImage v =>
      mkUser (_id u) (username u) (email u) (fullName u) (avatar u) v
             (password u) (refreshToken u) (watchHistory u)
  | UnsetRefreshToken =>
      mkUser (_id u) (username u) (email u) (fullName u) (avatar u)
             (coverImage u) (password u) None (watchHistory u)
  end.

(** [User.findByIdAndUpdate(id, ups, { new: true })]: the document after
    the update, [None] when there is none with this identifier. *)
Definition findByIdAndUpdate (id : ObjectId) (ups : list update) : M (option User) :=
  found <- findById id ;;
  match found with
  | None => ret None
  | Some u =>
      let u' := fold_left (fun acc up => apply up acc) ups u in
      w <- get_world ;;
      if negb (username u' =? username u)%string && collides u' (users w)
      then throw duplicate_key
      else (write u' ;;; ret (Some u'))
  end.

Definition set_refreshToken (t : string) (u : User) : User :=
  mkUser (_id u) (username u) (email u) (fullName u) (avatar u)
         (coverImage u) (password u) (Some t) (watchHistory u).

(** Modelled from the spec: a changed password is stored as its hash (the
    hook of the schema that runs on [save] is not among the sources). *)
Definition set_password (h : string) (u : User) : User :=
  mkUser (_id u) (username u) (email u) (fullName u) (avatar u)
         (coverImage u) h (refreshToken u) (watchHistory u).

(** The words of a selection string. *)
Fixpoint words (s cur : string) : list string :=
  match s with
  | EmptyString => if (cur =? "")%string then [] else [cur]
  | String c r =>
      if Ascii.eqb c " "
      then (if (cur =? "")%string then words r "" else cur :: words r "")
      else words r (cur ++ String c "")
  end.

Definition excluded (selection : string) : list string :=
  flat_map (fun w => match w with
                     | String "-" name => [name]
                     | _ => []
                     end) (words selection "").

(** [.select("-a -b")] on the document a query answers with. *)
Definition select (selection : string) (d : doc) : doc :=
  filter (fun kv => negb (mem_string (fst kv) (excluded selection))) d.

(** [User.aggregate(pipeline)]; the pipeline is sent as it is, without
    the casts of the schema. *)
Definition aggregate (pipeline : list Agg.stage) : M (list doc) :=
  fun w =>
    match Agg.run_pipeline (collection w) pipeline (map userDoc (users w)) with
    | Some out => (Return out, w)
    | None => (Throw (Native "MongoServerError" "aggregation failed"), w)
    end.

End UserModel.

(** A value that is a document or [null]. *)
Definition doc_or_null (o : option doc) : value :=
  match o with
  | Some d => VObj d
  | None => VNull
  end.

(** Property access on a plain object: [undefined] when absent. *)
Definition prop (k : string) (d : doc) : value :=
  match field k d with
  | Some v => v
  | None => VUndefined
  end.

(** ** The controller *)

Module Controller.

(** The names bound in the module: its imports and its own constants.
    Reading any other name throws a [ReferenceError]. *)
Definition module_bindings : list string :=
  [ "asyncHandler"; "ApiError"; "User"; "ApiResponse";
    "uploadOnCloudinary"; "deleteCloudinaryImage"; "mongoose";
    "genarateAccessTokenAndRefreshToken"; "registerUser"; "loginUser";
    "logoutUser"; "refreshAccessToken"; "currentPasswordChange";
    "getCurrentUser"; "updateAccountDetails"; "updateAvatarFile";
    "updateCoverImageFile"; "getUserChannelProfile"; "getWatchHistory" ].

Definition identifier (scope : list string) (name : string) : M unit :=
  if mem_string name scope then ret tt
  else throw (Native "ReferenceError" (name ++ " is not defined")).

(** [a || b] on values that are strings or [undefined]. *)
Definition js_or (a b : option string) : option string :=
  if Js.truthy_opt a then a else b.

(** [a === s] where [a] is a string or [undefined] and [s] a string. *)
Definition strict_eq (a : option string) (s : string) : bool :=
  match a with
  | Some x => (x =? s)%string
  | None => false
  end.

Definition js_truthy (v : value) : bool :=
  match v with
  | VUndefined | VNull | VBool false | VNum 0 | VStr EmptyString => false
  | _ => true
  end.

Definition option_ : list (string * value) :=
  [("httpOnly", VBool true); ("secure", VBool true)].

Definition respond (code : nat) (d : value) (msg : string) : Response :=
  mkResponse code [] [] (mkApiResponse code d msg).

(** *** The password pattern

    [/^(?=.*[a-z])(?=.*[A-Z])(?=.*\d)(?=.*[@$!%*?&])[A-Za-z\d@$!%*?&]{10,}$/]:
    four lookaheads at the start of the input, each asking for a
    character of a class on the first line ([.] stops at a line
    terminator), then ten or more characters of the allowed class up to
    the end of the input. *)
Definition is_symbol (c : ascii) : bool :=
  existsb (Ascii.eqb c) (Js.chars "@$!%*?&").

Definition allowed (c : ascii) : bool :=
  Js.is_upper c || Js.is_lower c || Js.is_digit c || is_symbol c.

Fixpoint first_line (l : list ascii) : list ascii :=
  match l with
  | [] => []
  | c :: r => if Js.is_line_terminator c then [] else c :: first_line r
  end.

Definition lookahead (class : ascii -> bool) (s : string) : bool :=
  existsb class (first_line (Js.chars s)).

Definition passwordRegex_test (s : string) : bool :=
  lookahead Js.is_lower s
  && lookahead Js.is_upper s
  && lookahead Js.is_digit s
  && lookahead is_symbol s
  && (forallb allowed (Js.chars s) && (10 <=? String.length s)).

(** *** The pipelines *)

Definition channelPipeline (username : string) (viewer : ObjectId) : list Agg.stage :=
  [ Agg.Match "username" (VStr username);
    Agg.Lookup "subscriptions" "_id" "channel" "subscribers" [];
    Agg.Lookup "subscriptions" "_id" "subscriber" "subscribedTo" [];
    Agg.AddFields
      [ ("subscribersCount", Agg.Size (Agg.Path ["subscribers"]));
        ("subscribedToCount", Agg.Size (Agg.Path ["subscribedTo"]));
        ("isCurrentUserSubscribe",
          Agg.Cond (Agg.In_ (Agg.Const (VId viewer))
                            (Agg.Path ["subscribers"; "subscriber"]))
                   (Agg.Const (VBool true))
                   (Agg.Const (VBool false))) ];
    Agg.Project
      [ "fullName"; "avatar"; "coverImage"; "username"; "email";
        "subscribersCount"; "subscribedToCount"; "isCurrentUserSubscribe" ] ].

(** The watch-history pipeline, with the name of the local field of its
    outer [$lookup] left open. *)
Definition historyPipeline (localField : string) (userId : ObjectId) : list Agg.stage :=
  [ Agg.Match "_id" (VId userId);
    Agg.Lookup "videos" localField "_id" "watchHistory"
      [ Agg.Lookup "users" "owner" "_id" "owner"
          [ Agg.Project ["fullName"; "avatar"; "username"] ];
        Agg.AddFields [ ("owner", Agg.First (Agg.Path ["owner"])) ] ] ].

Definition watchHistoryPipeline : ObjectId -> list Agg.stage :=
  historyPipeline "watchhistory".

(** *** Requests *)

Record RegisterRequest : Type := mkRegisterRequest
  { reg_username : string;
    reg_email : string;
    reg_fullName : string;
    reg_password : string;
    (** [req.files.avatar[0].path] and [req.files.coverImage[0].path] *)
    reg_avatar : option string;
    reg_coverImage : option string }.

Record LoginRequest : Type := mkLoginRequest
  { login_email : option string;
    login_password : string }.

Record RefreshRequest : Type := mkRefreshRequest
  { cookies_refreshToken : option string;
    body_refreshToken : option string }.

Record PasswordRequest : Type := mkPasswordRequest
  { pw_user : ObjectId;
    oldPassword : string;
    newPassword : string }.

Record DetailsRequest : Type := mkDetailsRequest
  { det_user : ObjectId;
    det_fullName : option string;
    det_username : option string }.

Record FileRequest : Type := mkFileRequest
  { file_user : ObjectId;
    file_path : option string }.

Record ChannelRequest : Type := mkChannelRequest
  { params_username : option string;
    viewer : ObjectId }.

(** *** The handlers

    Each handler is the function handed to [asyncHandler], which is not
    among the sources: what the function throws is the failure of the
    request, with the status code the [ApiError] carries. *)

Section Handlers.

Context {C : Collaborators}.

Definition uploadOnCloudinary (path : string) : M (option string) :=
  emit (Uploaded path) ;;; ret (cloudinary_upload path).

Definition deleteCloudinaryImage (url : string) : M unit :=
  emit (Deleted url).

Definition genarateAccessTokenAndRefreshToken (userid : ObjectId) : M doc :=
  try_catch
    (found <- UserModel.findById userid ;;
     match found with
     | None => throw (Native "TypeError" "Cannot read properties of null")
     | Some user =>
         w <- get_world ;;
         let accessToken := generateAccessToken user (now w) in
         let refreshToken := generateRefreshToken user (now w) in
         UserModel.save (UserModel.set_refreshToken refreshToken user) ;;;
         ret [ ("accessToken", VStr accessToken);
               ("refreshToken", VStr refreshToken) ]
     end)
    (fun _ =>
       throwApi 500 "Something went wrong for generate Access token or Refresh token").

Definition registerUser (req : RegisterRequest) : M Response :=
  let username := reg_username req in
  let email := reg_email req in
  let fullName := reg_fullName req in
  let password := reg_password req in
  throw_if (existsb (fun field => (Js.trim field =? "")%string)
                    [username; email; fullName; password])
           400 "All fields are required" ;;;
  existingUser <- UserModel.findOne
                    (UserModel.Or [UserModel.ByUsername username;
                                   UserModel.ByEmail email]) ;;
  throw_if (match existingUser with Some _ => true | None => false end)
           400 "User already exists" ;;;
  try_catch
    (let avatarLocalPath := reg_avatar req in
     let coverImageLocalPath := reg_coverImage req in
     match avatarLocalPath with
     | Some avatarPath =>
         if Js.truthy avatarPath then
           avatar <- uploadOnCloudinary avatarPath ;;
           coverImage <- match coverImageLocalPath with
                         | Some coverPath =>
                             if Js.truthy coverPath
                             then uploadOnCloudinary coverPath
                             else ret None
                         | None => ret None
                         end ;;
           match avatar with
           | None => throwApi 500 "Failed to upload avatar to Cloudinary"
           | Some avatar_url =>
               user <- UserModel.create
                         (UserModel.mkFields username email fullName avatar_url
                            (match coverImage with
                             | Some url => if Js.truthy url then url else ""
                             | None => ""
                             end)
                            password) ;;
               found <- UserModel.findById (_id user) ;;
               match found with
               | None =>
                   throwApi 500 "Something went wrong while registering the user"
               | Some created =>
                   let createdUser :=
                     UserModel.select "-password -refreshToken" (userDoc created) in
                   ret (respond 200 (VObj createdUser) "User registered successfully")
               end
           end
         else throwApi 400 "Avatar image is required"
     | None => throwApi 400 "Avatar image is required"
     end)
    (fun error =>
       throw (ApiError 500 "Internal server error during registration" (Some error))).

Definition loginUser (req : LoginRequest) : M Response :=
  match login_email req with
  | Some email =>
      if Js.truthy email then
        found <- UserModel.findOne (UserModel.ByEmail (Js.toLowerCase email)) ;;
        match found with
        | None => throwApi 404 "User does not exist"
        | Some user =>
            throw_if (negb (isPasswordCorrect (login_password req) (password user)))
                     401 "Invalid user credentials" ;;;
            tokens <- genarateAccessTokenAndRefreshToken (_id user) ;;
            let accessToken := prop "accessToken" tokens in
            let refreshToken := prop "refreshToken" tokens in
            again <- UserModel.findById (_id user) ;;
            let loggedInUser :=
              option_map (fun u => UserModel.select "-password -refreshToken"
                                                    (userDoc u)) again in
            ret (mkResponse 200
                   [ mkCookie "accessToken" accessToken [];
                     mkCookie "refreshToken" refreshToken option_ ]
                   []
                   (mkApiResponse 200
                      (VObj [ ("user", doc_or_null loggedInUser);
                              ("accessToken", accessToken);
                              ("refreshToken", refreshToken) ])
                      "User logged in successfully"))
        end
      else throwApi 400 "email is required"
  | None => throwApi 400 "email is required"
  end.

Definition logoutUser (userId : ObjectId) : M Response :=
  UserModel.findByIdAndUpdate userId [UserModel.UnsetRefreshToken] ;;;
  ret (mkResponse 200 [] [("accessToken", option_); ("refreshToken", option_)]
         (mkApiResponse 200 (VObj []) "User logged out successfully")).

(** [refreshAccessToken], with the names bound where it is defined. *)
Definition refreshAccessToken_in (scope : list string) (req : RefreshRequest)
  : M Response :=
  let incomingRefreshToken :=
    js_or (cookies_refreshToken req) (body_refreshToken req) in
  if Js.truthy_opt incomingRefreshToken then
    let incoming := match incomingRefreshToken with Some t => t | None => "" end in
    try_catch
      (identifier scope "jwt" ;;;
       match jwt_verify incoming (process_env "ACCESS_TOKEN_SECRET") with
       | None => throw (Native "JsonWebTokenError" "invalid token")
       | Some decoded_id =>
           found <- UserModel.findById decoded_id ;;
           match found with
           | None => throwApi 401 "Invalid refresh token"
           | Some user =>
               throw_if (negb (match refreshToken user with
                               | Some stored => (incoming =? stored)%string
                               | None => false
                               end))
                        401 "Refresh token is expired or used" ;;;
               tokens <- genarateAccessTokenAndRefreshToken (_id user) ;;
               let accessToken := prop "accessToken" tokens in
               let newRefreshToken := prop "newRefreshToken" tokens in
               ret (mkResponse 200
                      [ mkCookie "accessToken" accessToken [];
                        mkCookie "refreshToken" newRefreshToken option_ ]
                      []
                      (mkApiResponse 200
                         (VObj [ ("accessToken", accessToken);
                                 ("refreshToken", newRefreshToken) ])
                         "Access token refreshed"))
           end
       end)
      (fun error =>
         throwApi 401 (if Js.truthy (exn_message error)
                       then exn_message error
                       else "Invalid refresh token"))
  else throwApi 401 "Unauthorized request".

Definition refreshAccessToken : RefreshRequest -> M Response :=
  refreshAccessToken_in module_bindings.

Definition currentPasswordChange (req : PasswordRequest) : M Response :=
  let userId := pw_user req in
  found <- UserModel.findById userId ;;
  match found with
  | None => throwApi 404 "User not found"
  | Some user =>
      throw_if (negb (isPasswordCorrect (oldPassword req) (password user)))
               400 "Invalid old password" ;;;
      throw_if (isPasswordCorrect (newPassword req) (password user))
               400 "New password cannot be the same as the old password" ;;;
      throw_if (negb (passwordRegex_test (newPassword req)))
               400 "New password must be at least 10 characters long, contain a mix of uppercase and lowercase letters, a number, and a special character." ;;;
      UserModel.save (UserModel.set_password (hashPassword (newPassword req)) user) ;;;
      ret (respond 200 (VObj []) "Password changed successfully")
  end.

Definition getCurrentUser (userId : ObjectId) : M Response :=
  found <- UserModel.findById userId ;;
  match found with
  | None => throwApi 404 "User not found"
  | Some user =>
      ret (respond 200 (VObj (userDoc user)) "Current user retrieved successfully")
  end.

Definition updateAccountDetails (req : DetailsRequest) : M Response :=
  let userId := det_user req in
  (match det_username req with
   | Some name =>
       if Js.truthy name then
         existingUser <- UserModel.findOne (UserModel.ByUsername name) ;;
         throw_if (match existingUser with
                   | Some e => negb (_id e =? userId)
                   | None => false
                   end)
                  400 "Username already exists. Try another one "
       else ret tt
   | None => ret tt
   end) ;;;
  current <- UserModel.findById userId ;;
  match current with
  | None => throw (Native "TypeError" "Cannot read properties of null")
  | Some currentUser =>
      throw_if (strict_eq (det_fullName req) (fullName currentUser)
                || strict_eq (det_username req) (username currentUser))
               400 "New full name and username cannot be the same as the old ones" ;;;
      let updateObject :=
        (match det_fullName req with
         | Some v => if Js.truthy v then [UserModel.SetFullName v] else []
         | None => []
         end)
        ++ (match det_username req with
            | Some v => if Js.truthy v then [UserModel.SetUsername v] else []
            | None => []
            end) in
      updated <- UserModel.findByIdAndUpdate userId updateObject ;;
      match updated with
      | None => throwApi 500 "Something went wrong while updating the user"
      | Some updatedUser =>
          ret (respond 200 (VObj (userDoc updatedUser))
                       "User account updated successfully")
      end
  end.

Definition updateAvatarFile (req : FileRequest) : M Response :=
  let userId := file_user req in
  found <- UserModel.findById userId ;;
  match found with
  | None => throwApi 404 "User not found"
  | Some user =>
      if Js.truthy_opt (file_path req) then
        let avatarLocalPath := match file_path req with Some p => p | None => "" end in
        uploaded <- uploadOnCloudinary avatarLocalPath ;;
        if Js.truthy_opt uploaded then
          let url := match uploaded with Some u => u | None => "" end in
          let oldAvatarUrl := avatar user in
          (if Js.truthy oldAvatarUrl && negb (oldAvatarUrl =? url)%string
           then deleteCloudinaryImage oldAvatarUrl
           else ret tt) ;;;
          updated <- UserModel.findByIdAndUpdate userId [UserModel.SetAvatar url] ;;
          match updated with
          | None => throwApi 500 "Failed to update user with new avatar"
          | Some u =>
              let updatedUser := UserModel.select "-password" (userDoc u) in
              ret (respond 200 (VObj updatedUser) "Avatar updated successfully")
          end
        else throwApi 500 "Failed to upload avatar to Cloudinary"
      else throwApi 400 "Avatar file is missing"
  end.

Definition updateCoverImageFile (req : FileRequest) : M Response :=
  let userId := file_user req in
  found <- UserModel.findById userId ;;
  match found with
  | None => throwApi 404 "User not found"
  | Some user =>
      if Js.truthy_opt (file_path req) then
        let coverImageLocalPath :=
          match file_path req with Some p => p | None => "" end in
        uploaded <- uploadOnCloudinary coverImageLocalPath ;;
        if Js.truthy_opt uploaded then
          let url := match uploaded with Some u => u | None => "" end in
          let oldCoverImageUrl := coverImage user in
          updated <- UserModel.findByIdAndUpdate userId [UserModel.SetCoverImage url] ;;
          match updated with
          | None => throwApi 500 "Something went wrong while updating the cover image"
          | Some u =>
              let updatedUser :=
                UserModel.select "-password -refreshToken" (userDoc u) in
              (if Js.truthy oldCoverImageUrl && negb (oldCoverImageUrl =? url)%string
               then deleteCloudinaryImage oldCoverImageUrl
               else ret tt) ;;;
              ret (respond 200 (VObj updatedUser) "Cover image updated successfully")
          end
        else throwApi 500 "Failed to upload cover image to Cloudinary"
      else throwApi 400 "Cover image file is missing"
  end.

Definition getUserChannelProfile (req : ChannelRequest) : M Response :=
  match params_username req with
  | Some name =>
      if Js.truthy (Js.trim name) then
        channel <- UserModel.aggregate
                     (channelPipeline (Js.toLowerCase name) (viewer req)) ;;
        match channel with
        | [] => throwApi 404 "Channel does not exist"
        | first :: _ =>
            ret (respond 200 (VObj first) "Channel data accessed successfully")
        end
      else throwApi 404 "Username is missing"
  | None => throwApi 404 "Username is missing"
  end.

Definition getWatchHistory (userId : ObjectId) : M Response :=
  user <- UserModel.aggregate (watchHistoryPipeline userId) ;;
  match user with
  | [] => ret (respond 404 (VObj []) "No watch history found")
  | first :: _ =>
      if js_truthy (prop "watchHistory" first)
      then ret (respond 200 (prop "watchHistory" first)
                        "Watch history accessed successfully")
      else ret (respond 404 (VObj []) "No watch history found")
  end.

End Handlers.

End Controller.

(** ** The spec's strength predicate

    Written from the words of the spec, to be compared with the pattern of
    the controller: minimum length 10, a lowercase letter, an uppercase
    letter, a digit and a symbol of the fixed set. *)
Definition spec_strong (s : string) : bool :=
  (10 <=? String.length s)
  && existsb Js.is_lower (Js.chars s)
  && existsb Js.is_upper (Js.chars s)
  && existsb Js.is_digit (Js.chars s)
  && existsb Controller.is_symbol (Js.chars s).

(** ** A concrete instance

    Toy collaborators and a small store, on which the handlers can be run:
    the hash of [p] is ["hash:" ++ p], a token names its account by the
    number of [i]s after its prefix, and every token verifies. *)
Module Demo.

Fixpoint unary (n : nat) : string :=
  match n with
  | 0 => ""
  | S k => String "i" (unary k)
  end.

Definition decode (token : string) : option ObjectId :=
  match token with
  | String "r" (String "." r) => Some (String.length r)
  | String "a" (String "." r) => Some (String.length r)
  | _ => None
  end.

#[export] Instance collaborators : Collaborators :=
  {| isPasswordCorrect := fun p h => (h =? "hash:" ++ p)%string;
     hashPassword := fun p => ("hash:" ++ p)%string;
     generateAccessToken := fun u _ => ("a." ++ unary (_id u))%string;
     generateRefreshToken := fun u _ => ("r." ++ unary (_id u))%string;
     jwt_verify := fun token _ => decode token;
     process_env := fun _ => Some "secret";
     cloudinary_upload := fun p => Some ("https://cdn/" ++ p)%string |}.

Definition alice : User :=
  mkUser 1 "alice" "alice@x.org" "Alice" "https://cdn/a.png" "" "hash:Secret#1"
         None [3; 1; 2].

Definition bob : User :=
  mkUser 2 "bob" "bob@x.org" "Bob" "https://cdn/b.png" "" "hash:pw" None [].

Definition carol : User :=
  mkUser 3 "carol" "carol@x.org" "Carol" "https://cdn/c.png" "" "hash:pw" None [].

(** Alice and Bob subscribe to Carol; the videos are stored in the order
    1, 2, 3 and Alice has watched 3, 1, 2. *)
Definition world : World :=
  mkWorld [alice; bob; carol]
          [mkSubscription 10 1 3; mkSubscription 11 2 3]
          [mkVideo 1 2; mkVideo 2 3; mkVideo 3 2]
          0 [].

(** The answer to Alice's login and the world it leaves. *)
Definition login_response : Response :=
  Eval vm_compute in
    match fst (Controller.loginUser
                 (Controller.mkLoginRequest (Some "Alice@X.org") "Secret#1") world) with
    | Return r => r
    | Throw _ => Controller.respond 0 VNull ""
    end.

Definition logged_in : World :=
  Eval vm_compute in
    snd (Controller.loginUser
           (Controller.mkLoginRequest (Some "Alice@X.org") "Secret#1") world).

End Demo.

(** ** Notions used in the statements *)

(** What the inner [$lookup] and [$project] keep of an owner. *)
Definition owner_view (o : User) : doc :=
  [ ("_id", VId (_id o));
    ("username", VStr (username o));
    ("fullName", VStr (fullName o));
    ("avatar", VStr (avatar o)) ].

(** The document the watch-history pipeline makes of a video: its owner is
    the first account with the owner's identifier, and the field is absent
    when there is none. *)
Definition history_view (w : World) (v : Video) : doc :=
  match filter (fun u => owner v =? _id u) (users w) with
  | [] => [ ("_id", VId (video_id v)) ]
  | o :: _ => [ ("_id", VId (video_id v)); ("owner", VObj (owner_view o)) ]
  end.

(** The videos a [$lookup] on the history field joins: those of the
    collection, in its order, whose identifier occurs in the history. *)
Definition joined_videos (w : World) (u : User) : list Video :=
  filter (fun v => existsb (fun i => i =? video_id v) (watchHistory u)) (videos w).

(** The results of two runs, put end to end. *)
Definition both (a b : option (list doc)) : option (list doc) :=
  match a, b with
  | Some x, Some y => Some (x ++ y)
  | _, _ => None
  end.

(** The identifiers of the documents in a joined array. *)
Definition ids_of (v : value) : list value :=
  match v with
  | VArr l => map (fun x => match x with VObj d => prop "_id" d | _ => VUndefined end) l
  | _ => []
  end.

Definition owners_of (v : value) : list value :=
  match v with
  | VArr l => map (fun x => match x with VObj d => prop "owner" d | _ => VUndefined end) l
  | _ => []
  end.

(** The edges toward an account and the edges from it. *)
Definition edges_toward (w : World) (c : User) : list Subscription :=
  filter (fun s => _id c =? channel s) (subscriptions w).

Definition edges_from (w : World) (c : User) : list Subscription :=
  filter (fun s => _id c =? subscriber s) (subscriptions w).

(** The document the channel pipeline makes of an account. *)
Definition channel_view (w : World) (viewerId : ObjectId) (u : User) : doc :=
  [ ("_id", VId (_id u));
    ("username", VStr (username u));
    ("email", VStr (email u));
    ("fullName", VStr (fullName u));
    ("avatar", VStr (avatar u));
    ("coverImage", VStr (coverImage u));
    ("subscribersCount", VNum (length (edges_toward w u)));
    ("subscribedToCount", VNum (length (edges_from w u)));
    ("isCurrentUserSubscribe",
      VBool (existsb (fun s => viewerId =? subscriber s) (edges_toward w u))) ].

(** Equality up to letter case. *)
Definition same_ignoring_case (a b : string) : Prop :=
  Js.toLowerCase a = Js.toLowerCase b.

(** Some required field is blank after trimming. *)
Definition blank_field (req : Controller.RegisterRequest) : bool :=
  existsb (fun field => (Js.trim field =? "")%string)
          [ Controller.reg_username req; Controller.reg_email req;
            Controller.reg_fullName req; Controller.reg_password req ].

Definition existing_query (req : Controller.RegisterRequest) : UserModel.query :=
  UserModel.Or [ UserModel.ByUsername (Controller.reg_username req);
                 UserModel.ByEmail (Controller.reg_email req) ].

(** [p] is the current password of [u]: it passes the check against the
    stored hash. *)
Definition current_password {C : Collaborators} (u : User) (p : string) : Prop :=
  isPasswordCorrect p (password u) = true.

(** The part of the world a handler cannot rewrite: it keeps the accounts
    it found (their identifiers, in order), the subscriptions, the videos
    and the clock, and only adds to the trace. *)
Definition extends (w w' : World) : Prop :=
  map _id (users w') = map _id (users w)
  /\ subscriptions w' = subscriptions w
  /\ videos w' = videos w
  /\ now w' = now w
  /\ exists events, trace w' = trace w ++ events.

(** A computation whose every run, returning or throwing, extends the
    world. *)
Definition stable {A} (m : M A) : Prop :=
  forall w, extends w (snd (m w)).

(** The account a request registers, with the reference [url] of its
    uploaded avatar and no cover image. *)
Definition registered {C : Collaborators} (req : Controller.RegisterRequest)
           (w : World) (url : string) : User :=
  mkUser (UserModel.fresh_id (users w))
         (Js.toLowerCase (Controller.reg_username req))
         (Js.toLowerCase (Controller.reg_email req))
         (Controller.reg_fullName req) url ""
         (hashPassword (Controller.reg_password req)) None [].

(** Collaborators whose object storage gives no reference back. *)
Definition offline : Collaborators :=
  {| isPasswordCorrect := fun p h => (h =? "hash:" ++ p)%string;
     hashPassword := fun p => ("hash:" ++ p)%string;
     generateAccessToken := fun u _ => ("a." ++ Demo.unary (_id u))%string;
     generateRefreshToken := fun u _ => ("r." ++ Demo.unary (_id u))%string;
     jwt_verify := fun token _ => Demo.decode token;
     process_env := fun _ => Some "secret";
     cloudinary_upload := fun _ => None |}.

(** * Properties *)

(** ** The monad and the store *)

Lemma bind_return {A B} (m : M A) (k : A -> M B) (w w' : World) (a : A) :
  m w = (Return a, w') -> bind m k w = k a w'.
Proof. intros H. unfold bind. now rewrite H. Qed.

Lemma bind_throw {A B} (m : M A) (k : A -> M B) (w w' : World) (e : exn) :
  m w = (Throw e, w') -> bind m k w = (Throw e, w').
Proof. intros H. unfold bind. now rewrite H. Qed.

Lemma findById_run (id : ObjectId) (w : World) :
  UserModel.findById id w = (Return (find (fun u => _id u =? id) (users w)), w).
Proof. reflexivity. Qed.

Lemma findOne_run (q : UserModel.query) (w : World) :
  UserModel.findOne q w = (Return (find (UserModel.matches q) (users w)), w).
Proof. reflexivity. Qed.

Lemma find_exists {A} (p : A -> bool) (l : list A) (x : A) :
  In x l -> p x = true -> exists y, find p l = Some y.
Proof.
  intros Hin Hp. destruct (find p l) as [y|] eqn:E.
  - now exists y.
  - apply find_none with (x := x) in E; [congruence | assumption].
Qed.

(** ** Token refresh *)

Section Refresh.

Context {C : Collaborators}.

Lemma refreshAccessToken_throws (req : Controller.RefreshRequest) (w : World) :
  exists msg,
    Controller.refreshAccessToken req w = (Throw (ApiError 401 msg None), w).
Proof.
  unfold Controller.refreshAccessToken, Controller.refreshAccessToken_in.
  destruct (Js.truthy_opt _).
  - eexists. reflexivity.
  - eexists. reflexivity.
Qed.

Lemma refreshAccessToken_message (req : Controller.RefreshRequest) (w : World) :
  Js.truthy_opt (Controller.js_or (Controller.cookies_refreshToken req)
                                  (Controller.body_refreshToken req)) = true ->
  Controller.refreshAccessToken req w
  = (Throw (ApiError 401 "jwt is not defined" None), w).
Proof.
  intros H. unfold Controller.refreshAccessToken, Controller.refreshAccessToken_in.
  rewrite H. reflexivity.
Qed.

Lemma genarate_returns_pair (id : ObjectId) (w w' : World) (d : doc) :
  Controller.genarateAccessTokenAndRefreshToken id w = (Return d, w') ->
  exists a r, d = [("accessToken", VStr a); ("refreshToken", VStr r)].
Proof.
  unfold Controller.genarateAccessTokenAndRefreshToken, try_catch, bind.
  rewrite findById_run.
  destruct (find _ _) as [u|]; cbn; intros H; inversion H.
  eauto.
Qed.

Lemma refresh_drops_new_token (scope : list string) (req : Controller.RefreshRequest)
      (w w' : World) (r : Response) :
  Controller.refreshAccessToken_in scope req w = (Return r, w') ->
  exists a,
    data (json r) = VObj [("accessToken", VStr a); ("refreshToken", VUndefined)]
    /\ cookies r = [ mkCookie "accessToken" (VStr a) [];
                     mkCookie "refreshToken" VUndefined Controller.option_ ].
Proof.
  unfold Controller.refreshAccessToken_in.
  destruct (Js.truthy_opt _); [|discriminate].
  unfold try_catch at 1.
  match goal with |- (match ?m with _ => _ end) = _ -> _ => destruct m as [[r0|e] w0] eqn:E end.
  2:{ cbn. discriminate. }
  intros H; inversion H; subst r0 w0; clear H.
  revert E. unfold bind at 1.
  destruct (Controller.identifier scope "jwt" w) as [[[]|e] w1]; [|discriminate].
  destruct (jwt_verify _ _) as [id|]; [|discriminate].
  unfold bind at 1. rewrite findById_run.
  destruct (find _ _) as [u|]; [|discriminate].
  unfold bind at 1.
  destruct (throw_if _ _ _ _) as [[[]|e] w2]; [|discriminate].
  unfold bind at 1.
  destruct (Controller.genarateAccessTokenAndRefreshToken _ _) as [[d|e] w3] eqn:G;
    [|discriminate].
  apply genarate_returns_pair in G. destruct G as (a & t & ->).
  cbn. intros H; inversion H; subst. exists a. split; reflexivity.
Qed.

Lemma In_replace (u u' : User) (us : list User) (id : ObjectId) :
  find (fun x => _id x =? id) us = Some u ->
  _id u' = id ->
  In u' (UserModel.replace u' us).
Proof.
  intros H Hid. apply find_some in H. destruct H as [Hin Heq].
  apply Nat.eqb_eq in Heq. unfold UserModel.replace.
  apply in_map_iff. exists u. split; [|assumption].
  rewrite Heq, Hid, Nat.eqb_refl. reflexivity.
Qed.

Lemma genarate_stores_token (id : ObjectId) (w w' : World) (d : doc) :
  Controller.genarateAccessTokenAndRefreshToken id w = (Return d, w') ->
  exists u t, In u (users w') /\ refreshToken u = Some t
              /\ prop "refreshToken" d = VStr t.
Proof.
  unfold Controller.genarateAccessTokenAndRefreshToken, try_catch, bind.
  rewrite findById_run.
  destruct (find _ _) as [u|] eqn:F; cbn; intros H; inversion H; subst; clear H.
  exists (UserModel.set_refreshToken (generateRefreshToken u (now w)) u).
  eexists. cbn. split; [|split; reflexivity].
  eapply In_replace; [exact F|].
  apply find_some in F. destruct F as [_ F]. now apply Nat.eqb_eq in F.
Qed.

Lemma login_stores_token (req : Controller.LoginRequest) (w w1 : World)
      (r : Response) (token : string) :
  Controller.loginUser req w = (Return r, w1) ->
  body_field "refreshToken" r = VStr token ->
  exists u, In u (users w1) /\ refreshToken u = Some token.
Proof.
  unfold Controller.loginUser.
  destruct (Controller.login_email req) as [e|]; [|discriminate].
  destruct (Js.truthy e); [|discriminate].
  unfold bind at 1. rewrite findOne_run.
  destruct (find _ _) as [user|]; [|discriminate].
  unfold bind at 1.
  destruct (throw_if _ _ _ _) as [[[]|x] w2]; [|discriminate].
  unfold bind at 1.
  destruct (Controller.genarateAccessTokenAndRefreshToken _ _) as [[d|x] w3] eqn:G;
    [|discriminate].
  apply genarate_stores_token in G. destruct G as (u & t & Hin & Ht & Hp).
  unfold bind. rewrite findById_run. cbn.
  intros H; inversion H; subst; clear H. unfold body_field. cbn.
  rewrite Hp. intros Heq; inversion Heq; subst. eauto.
Qed.

End Refresh.

(** C1 (as the code has it): a login stores the refresh token it issues on
    the account, and yet the refresh request that presents this token right
    after is rejected with status 401 and leaves the store as it was,
    because [jwt] is not bound in the module;
    and in whatever scope the handler is read, a refresh that does answer
    carries [undefined] where the new refresh token should be. *)
Theorem login_then_refresh_is_rejected :
  forall (C : Collaborators) (req : Controller.LoginRequest) (w w1 : World)
         (r : Response) (token : string),
    Controller.loginUser req w = (Return r, w1) ->
    body_field "refreshToken" r = VStr token ->
    (exists u, In u (users w1) /\ refreshToken u = Some token)
    /\ (exists msg,
        Controller.refreshAccessToken (Controller.mkRefreshRequest (Some token) None) w1
        = (Throw (ApiError 401 msg None), w1))
    /\ (forall scope r' w2,
           Controller.refreshAccessToken_in scope
             (Controller.mkRefreshRequest (Some token) None) w1 = (Return r', w2) ->
           body_field "refreshToken" r' = VUndefined).
Proof.
  intros C req w w1 r token Hlogin Htoken. split; [|split].
  - eapply login_stores_token; eassumption.
  - apply refreshAccessToken_throws.
  - intros scope r' w2 H. apply refresh_drops_new_token in H.
    destruct H as (a & E & _). unfold body_field. rewrite E. reflexivity.
Qed.

Lemma login_then_refresh_is_rejected_witness :
  Controller.loginUser (C := Demo.collaborators)
    (Controller.mkLoginRequest (Some "Alice@X.org") "Secret#1") Demo.world
  = (Return Demo.login_response, Demo.logged_in)
  /\ body_field "refreshToken" Demo.login_response = VStr "r.i"
  /\ ((exists u, In u (users Demo.logged_in) /\ refreshToken u = Some "r.i")
      /\ (exists msg,
             Controller.refreshAccessToken (C := Demo.collaborators)
               (Controller.mkRefreshRequest (Some "r.i") None) Demo.logged_in
             = (Throw (ApiError 401 msg None), Demo.logged_in))
      /\ (forall scope r' w2,
             Controller.refreshAccessToken_in (C := Demo.collaborators) scope
               (Controller.mkRefreshRequest (Some "r.i") None) Demo.logged_in
             = (Return r', w2) ->
             body_field "refreshToken" r' = VUndefined)).
Proof.
  split; [reflexivity|]. split; [reflexivity|].
  exact (@login_then_refresh_is_rejected
           Demo.collaborators
           (Controller.mkLoginRequest (Some "Alice@X.org") "Secret#1")
           Demo.world Demo.logged_in Demo.login_response "r.i"
           eq_refl eq_refl).
Defined.

(** With [jwt] bound, the same refresh answers 200 and hands back no refresh
    token. *)
Example refresh_with_jwt_bound :
  fst (Controller.refreshAccessToken_in (C := Demo.collaborators)
         ("jwt" :: Controller.module_bindings)
         (Controller.mkRefreshRequest (Some "r.i") None) Demo.logged_in)
  = Return (mkResponse 200
              [ mkCookie "accessToken" (VStr "a.i") [];
                mkCookie "refreshToken" VUndefined Controller.option_ ] []
              (mkApiResponse 200
                 (VObj [("accessToken", VStr "a.i"); ("refreshToken", VUndefined)])
                 "Access token refreshed")).
Proof. reflexivity. Qed.

(** ** Documents and pipelines *)

Lemma field_set_field (k : string) (v : value) (d : doc) :
  field k (set_field k v d) = Some v.
Proof.
  induction d as [|[k' v'] d IH]; simpl.
  - now rewrite String.eqb_refl.
  - destruct (k =? k')%string eqn:E; simpl; rewrite ?String.eqb_refl, ?E; auto.
Qed.

Lemma filter_map_comm {A B} (g : A -> B) (p : B -> bool) (l : list A) :
  filter p (map g l) = map g (filter (fun x => p (g x)) l).
Proof.
  induction l as [|x l IH]; simpl; [reflexivity|].
  destruct (p (g x)); simpl; now rewrite IH.
Qed.

Lemma traverse_total {A B} (f : A -> option B) (h : A -> B) (l : list A) :
  (forall x, In x l -> f x = Some (h x)) ->
  Agg.traverse f l = Some (map h l).
Proof.
  induction l as [|x l IH]; intros H; simpl; [reflexivity|].
  rewrite (H x (or_introl eq_refl)), IH; [reflexivity|].
  intros y Hy. apply H. now right.
Qed.

Lemma userDoc_id (u : User) : field "_id" (userDoc u) = Some (VId (_id u)).
Proof. reflexivity. Qed.

Lemma userDoc_username (u : User) :
  field "username" (userDoc u) = Some (VStr (username u)).
Proof. reflexivity. Qed.

Lemma userDoc_password (u : User) :
  field "password" (userDoc u) = Some (VStr (password u)).
Proof. reflexivity. Qed.

(** The account documents have no field named as the pipeline's local
    field. *)
Lemma userDoc_watchhistory (u : User) : field "watchhistory" (userDoc u) = None.
Proof. unfold userDoc. destruct (refreshToken u); reflexivity. Qed.

Lemma match_id_users (id : ObjectId) (us : list User) :
  filter (fun d => Agg.match_field (field "_id" d) (VId id)) (map userDoc us)
  = map userDoc (filter (fun u => id =? _id u) us).
Proof.
  rewrite filter_map_comm. f_equal. apply filter_ext. intros u.
  rewrite userDoc_id. unfold Agg.match_field. simpl. apply orb_false_r.
Qed.

Lemma join_missing_field (vs : list Video) :
  filter (fun f => Agg.join_on None (field "_id" f)) (map videoDoc vs) = [].
Proof. induction vs as [|v vs IH]; simpl; auto. Qed.

Lemma run_pipeline_cons (coll : string -> list doc) (s : Agg.stage)
      (p : list Agg.stage) (ds : list doc) :
  Agg.run_pipeline coll (s :: p) ds
  = match Agg.run_stage coll s ds with
    | Some ds' => Agg.run_pipeline coll p ds'
    | None => None
    end.
Proof. reflexivity. Qed.

Lemma run_stage_match (coll : string -> list doc) (k : string) (v : value)
      (ds : list doc) :
  Agg.run_stage coll (Agg.Match k v) ds
  = Some (filter (fun d => Agg.match_field (field k d) v) ds).
Proof. reflexivity. Qed.

Lemma traverse_app {A} (f : A -> option doc) (l1 l2 : list A) :
  Agg.traverse f (l1 ++ l2) = both (Agg.traverse f l1) (Agg.traverse f l2).
Proof.
  induction l1 as [|x l1 IH]; simpl.
  - destruct (Agg.traverse f l2); reflexivity.
  - rewrite IH. destruct (f x), (Agg.traverse f l1), (Agg.traverse f l2); reflexivity.
Qed.

(** Every stage, and so every pipeline, works document by document. *)
Lemma run_stage_app (coll : string -> list doc) (s : Agg.stage) (l1 l2 : list doc) :
  Agg.run_stage coll s (l1 ++ l2)
  = both (Agg.run_stage coll s l1) (Agg.run_stage coll s l2).
Proof.
  destruct s; simpl.
  - now rewrite filter_app.
  - apply traverse_app.
  - apply traverse_app.
  - now rewrite map_app.
Qed.

Lemma run_pipeline_app (coll : string -> list doc) (p : list Agg.stage) :
  forall l1 l2,
    Agg.run_pipeline coll p (l1 ++ l2)
    = both (Agg.run_pipeline coll p l1) (Agg.run_pipeline coll p l2).
Proof.
  induction p as [|s p IH]; intros l1 l2; [reflexivity|].
  rewrite !run_pipeline_cons, run_stage_app.
  destruct (Agg.run_stage coll s l1) as [a|], (Agg.run_stage coll s l2) as [b|];
    simpl; auto.
  destruct (Agg.run_pipeline coll p a); reflexivity.
Qed.

(** ** Watch history *)

Lemma watchHistory_stage_empty (w : World) (sub : list Agg.stage) (l : list doc) :
  (forall d, In d l -> field "watchhistory" d = None) ->
  Agg.run_stage (collection w)
    (Agg.Lookup "videos" "watchhistory" "_id" "watchHistory" sub) l
  = match Agg.run_pipeline (collection w) sub [] with
    | Some out => Some (map (set_field "watchHistory" (VArr (map VObj out))) l)
    | None => match l with [] => Some [] | _ => None end
    end.
Proof.
  intros H. simpl Agg.run_stage.
  change (collection w "videos") with (map videoDoc (videos w)).
  induction l as [|d l IH]; simpl.
  - destruct (Agg.run_pipeline _ _ _); reflexivity.
  - rewrite (H d (or_introl eq_refl)). rewrite join_missing_field.
    rewrite IH by (intros; apply H; now right).
    fold (Agg.run_pipeline (collection w) sub []).
    destruct (Agg.run_pipeline (collection w) sub []); [reflexivity|].
    reflexivity.
Qed.

Lemma watchHistory_aggregate (w : World) (id : ObjectId) :
  UserModel.aggregate (Controller.watchHistoryPipeline id) w
  = (Return (map (fun u => set_field "watchHistory" (VArr []) (userDoc u))
                 (filter (fun u => id =? _id u) (users w))), w).
Proof.
  unfold UserModel.aggregate, Controller.watchHistoryPipeline, Controller.historyPipeline.
  rewrite run_pipeline_cons, run_stage_match, match_id_users.
  rewrite run_pipeline_cons, watchHistory_stage_empty.
  - cbn. now rewrite map_map.
  - intros d Hd. apply in_map_iff in Hd. destruct Hd as (u & <- & _).
    apply userDoc_watchhistory.
Qed.

(** C2 (as the code has it): whatever the stored history of an account,
    [getWatchHistory] answers 200 with an empty list, because the outer
    [$lookup] reads the field [watchhistory], which no account document
    has. *)
Theorem getWatchHistory_is_empty :
  forall (w : World) (u : User),
    In u (users w) ->
    Controller.getWatchHistory (_id u) w
    = (Return (Controller.respond 200 (VArr []) "Watch history accessed successfully"), w).
Proof.
  intros w u Hin. unfold Controller.getWatchHistory.
  erewrite bind_return by apply watchHistory_aggregate.
  destruct (filter _ _) as [|x l] eqn:F.
  - exfalso.
    assert (Hx : In u (filter (fun v => _id u =? _id v) (users w)))
      by (apply filter_In; split; [assumption | apply Nat.eqb_refl]).
    rewrite F in Hx. destruct Hx.
  - cbn [map]. unfold prop. rewrite field_set_field. reflexivity.
Qed.

Lemma getWatchHistory_is_empty_witness :
  In Demo.alice (users Demo.world)
  /\ watchHistory Demo.alice = [3; 1; 2]
  /\ Controller.getWatchHistory 1 Demo.world
     = (Return (Controller.respond 200 (VArr []) "Watch history accessed successfully"),
        Demo.world).
Proof.
  split; [left; reflexivity|]. split; [reflexivity|].
  apply (getWatchHistory_is_empty Demo.world Demo.alice). left; reflexivity.
Defined.


(** Read from the field the accounts do have, the same pipeline joins the
    videos in the order of the [videos] collection (1, 2, 3), not in the
    order of the history (3, 1, 2); each owner is a single object. *)
Example history_join_follows_the_collection :
  match fst (UserModel.aggregate (Controller.historyPipeline "watchHistory" 1) Demo.world) with
  | Return (first :: _) =>
      ids_of (prop "watchHistory" first) = [VId 1; VId 2; VId 3]
      /\ owners_of (prop "watchHistory" first)
         = [ VObj [("_id", VId 2); ("username", VStr "bob"); ("fullName", VStr "Bob");
                   ("avatar", VStr "https://cdn/b.png")];
             VObj [("_id", VId 3); ("username", VStr "carol"); ("fullName", VStr "Carol");
                   ("avatar", VStr "https://cdn/c.png")];
             VObj [("_id", VId 2); ("username", VStr "bob"); ("fullName", VStr "Bob");
                   ("avatar", VStr "https://cdn/b.png")] ]
  | _ => False
  end.
Proof. cbv. split; reflexivity. Qed.

(** *** The join, had it read the history

    With the local field spelt as in the account documents, the pipeline
    joins the videos in the order of the [videos] collection. *)

Section History.

Variable w : World.

Lemma project_owner (o : User) :
  Agg.project ["fullName"; "avatar"; "username"] (userDoc o) = owner_view o.
Proof. unfold userDoc. destruct (refreshToken o); reflexivity. Qed.

Lemma join_owner (i : ObjectId) (us : list User) :
  filter (fun f => Agg.join_on (Some (VId i)) (field "_id" f)) (map userDoc us)
  = map userDoc (filter (fun u => i =? _id u) us).
Proof.
  rewrite filter_map_comm. f_equal. apply filter_ext. intros u.
  rewrite userDoc_id. unfold Agg.join_on. simpl. now rewrite !orb_false_r.
Qed.

Lemma history_stages (v : Video) :
  Agg.run_pipeline (collection w)
    [ Agg.Lookup "users" "owner" "_id" "owner"
        [ Agg.Project ["fullName"; "avatar"; "username"] ];
      Agg.AddFields [ ("owner", Agg.First (Agg.Path ["owner"])) ] ]
    [videoDoc v]
  = Some [history_view w v].
Proof.
  rewrite run_pipeline_cons. simpl Agg.run_stage.
  change (collection w "users") with (map userDoc (users w)).
  cbn [Agg.traverse videoDoc field String.eqb Ascii.eqb Bool.eqb].
  rewrite join_owner, map_map. unfold history_view.
  destruct (filter _ (users w)) as [|o os]; [reflexivity|].
  cbn [map]. rewrite project_owner. reflexivity.
Qed.

Lemma history_stages_all (vs : list Video) :
  Agg.run_pipeline (collection w)
    [ Agg.Lookup "users" "owner" "_id" "owner"
        [ Agg.Project ["fullName"; "avatar"; "username"] ];
      Agg.AddFields [ ("owner", Agg.First (Agg.Path ["owner"])) ] ]
    (map videoDoc vs)
  = Some (map (history_view w) vs).
Proof.
  induction vs as [|v vs IH]; [reflexivity|].
  change (map videoDoc (v :: vs)) with ([videoDoc v] ++ map videoDoc vs).
  now rewrite run_pipeline_app, history_stages, IH.
Qed.

Lemma join_history (u : User) (vs : list Video) :
  filter (fun f => Agg.join_on (field "watchHistory" (userDoc u)) (field "_id" f))
         (map videoDoc vs)
  = map videoDoc
        (filter (fun v => existsb (fun i => i =? video_id v) (watchHistory u)) vs).
Proof.
  rewrite filter_map_comm. f_equal. apply filter_ext. intros v.
  unfold Agg.join_on. cbn.
  induction (watchHistory u) as [|i h IH]; [reflexivity|].
  cbn. now rewrite IH, orb_false_r.
Qed.

Lemma run_stage_lookup_one (from lf ff as_ : string) (sub : list Agg.stage) (d : doc) :
  Agg.run_stage (collection w) (Agg.Lookup from lf ff as_ sub) [d]
  = match Agg.run_pipeline (collection w) sub
            (filter (fun f => Agg.join_on (field lf d) (field ff f))
                    (collection w from)) with
    | Some out => Some [set_field as_ (VArr (map VObj out)) d]
    | None => None
    end.
Proof.
  simpl Agg.run_stage. cbn [Agg.traverse].
  fold (Agg.run_pipeline (collection w) sub).
  destruct (Agg.run_pipeline _ _ _); reflexivity.
Qed.

Lemma history_lookup (l : list User) :
  Agg.run_stage (collection w)
    (Agg.Lookup "videos" "watchHistory" "_id" "watchHistory"
       [ Agg.Lookup "users" "owner" "_id" "owner"
           [ Agg.Project ["fullName"; "avatar"; "username"] ];
         Agg.AddFields [ ("owner", Agg.First (Agg.Path ["owner"])) ] ])
    (map userDoc l)
  = Some (map (fun u =>
                 set_field "watchHistory"
                   (VArr (map VObj (map (history_view w) (joined_videos w u))))
                   (userDoc u)) l).
Proof.
  induction l as [|u l IH]; [reflexivity|].
  change (map userDoc (u :: l)) with ([userDoc u] ++ map userDoc l).
  rewrite run_stage_app, IH, run_stage_lookup_one.
  change (collection w "videos") with (map videoDoc (videos w)).
  rewrite join_history. fold (joined_videos w u).
  now rewrite history_stages_all.
Qed.

Lemma history_aggregate (id : ObjectId) :
  UserModel.aggregate (Controller.historyPipeline "watchHistory" id) w
  = (Return
       (map (fun u =>
               set_field "watchHistory"
                 (VArr (map VObj (map (history_view w) (joined_videos w u))))
                 (userDoc u))
            (filter (fun u => id =? _id u) (users w))), w).
Proof.
  unfold UserModel.aggregate, Controller.historyPipeline.
  rewrite run_pipeline_cons, run_stage_match, match_id_users.
  rewrite run_pipeline_cons, history_lookup. reflexivity.
Qed.

(** The identifiers of the joined videos come in the order of the
    collection, each once, whatever the order of the history; no owner is
    an array. *)
Lemma history_join_order (u : User) :
  ids_of (VArr (map VObj (map (history_view w) (joined_videos w u))))
  = map (fun v => VId (video_id v)) (joined_videos w u)
  /\ Forall (fun o => match o with VArr _ => False | _ => True end)
            (owners_of (VArr (map VObj (map (history_view w) (joined_videos w u))))).
Proof.
  unfold ids_of, owners_of. rewrite !map_map. split.
  - apply map_ext. intros v. unfold history_view.
    destruct (filter _ (users w)); reflexivity.
  - apply Forall_forall. intros o Ho. apply in_map_iff in Ho.
    destruct Ho as (v & <- & _). unfold history_view.
    destruct (filter _ (users w)); exact I.
Qed.

End History.

(** ** Channel profile *)

Section Channel.

Variable w : World.
Variable viewerId : ObjectId.


Lemma match_username_users (q : string) (us : list User) :
  filter (fun d => Agg.match_field (field "username" d) (VStr q)) (map userDoc us)
  = map userDoc (filter (fun u => (q =? username u)%string) us).
Proof.
  rewrite filter_map_comm. f_equal. apply filter_ext. intros u.
  rewrite userDoc_username. unfold Agg.match_field. simpl. apply orb_false_r.
Qed.

Lemma join_subscriptions (k : string) (get : Subscription -> ObjectId) (i : ObjectId)
      (subs : list Subscription) :
  (forall s, field k (subscriptionDoc s) = Some (VId (get s))) ->
  filter (fun f => Agg.join_on (Some (VId i)) (field k f)) (map subscriptionDoc subs)
  = map subscriptionDoc (filter (fun s => i =? get s) subs).
Proof.
  intros Hk. rewrite filter_map_comm. f_equal. apply filter_ext. intros s.
  rewrite Hk. unfold Agg.join_on. simpl. now rewrite !orb_false_r.
Qed.

Lemma run_stage_lookup_plain (from lf ff as_ : string) (l : list doc) :
  Agg.run_stage (collection w) (Agg.Lookup from lf ff as_ []) l
  = Some (map (fun d =>
                 set_field as_
                   (VArr (map VObj
                            (filter (fun f => Agg.join_on (field lf d) (field ff f))
                                    (collection w from)))) d) l).
Proof. simpl. apply traverse_total. reflexivity. Qed.

Lemma channel_stages (q : string) (u : User) :
  Agg.run_pipeline (collection w)
    (tl (Controller.channelPipeline q viewerId)) [userDoc u]
  = Some [channel_view w viewerId u].
Proof.
  unfold Controller.channelPipeline, tl.
  rewrite run_pipeline_cons, run_stage_lookup_plain.
  rewrite run_pipeline_cons, run_stage_lookup_plain.
  cbn [map].
  change (collection w "subscriptions") with (map subscriptionDoc (subscriptions w)).
  change (field "_id" (set_field "subscribers" ?x (userDoc u)))
    with (Some (VId (_id u))).
  rewrite userDoc_id.
  rewrite (join_subscriptions "channel" channel) by reflexivity.
  rewrite (join_subscriptions "subscriber" subscriber) by reflexivity.
  fold (edges_toward w u). fold (edges_from w u).
  unfold channel_view.
  generalize (edges_toward w u) as t. generalize (edges_from w u) as f. intros f t.
  rewrite run_pipeline_cons.
  unfold userDoc.
  destruct (refreshToken u); cbn;
    match goal with
    | |- context [existsb ?p (flat_map ?g (map VObj (map subscriptionDoc t)))] =>
        assert (E : existsb p (flat_map g (map VObj (map subscriptionDoc t)))
                    = existsb (fun s => viewerId =? subscriber s) t)
          by (clear; induction t as [|x t IH]; [reflexivity|];
              cbn [map flat_map existsb app]; simpl; now rewrite IH);
        rewrite E; clear E
    end;
    destruct (existsb _ t); cbn; rewrite !length_map; reflexivity.
Qed.

Lemma channel_stages_all (q : string) (l : list User) :
  Agg.run_pipeline (collection w)
    (tl (Controller.channelPipeline q viewerId)) (map userDoc l)
  = Some (map (channel_view w viewerId) l).
Proof.
  induction l as [|u l IH]; [reflexivity|].
  change (map userDoc (u :: l)) with ([userDoc u] ++ map userDoc l).
  now rewrite run_pipeline_app, channel_stages, IH.
Qed.

(** The pipeline answers with the views of the accounts that bear the
    username, in the order of the collection. *)
Lemma channel_aggregate_all (q : string) :
  UserModel.aggregate (Controller.channelPipeline q viewerId) w
  = (Return (map (channel_view w viewerId)
                 (filter (fun u => (q =? username u)%string) (users w))), w).
Proof.
  unfold UserModel.aggregate.
  change (Controller.channelPipeline q viewerId)
    with (Agg.Match "username" (VStr q)
            :: tl (Controller.channelPipeline q viewerId)).
  rewrite run_pipeline_cons, run_stage_match, match_username_users.
  now rewrite channel_stages_all.
Qed.

Lemma filter_none {A} (p : A -> bool) (l : list A) :
  (forall x, In x l -> p x = false) -> filter p l = [].
Proof.
  induction l as [|x l IH]; intros H; simpl; [reflexivity|].
  rewrite (H x (or_introl eq_refl)). apply IH. intros y Hy. apply H. now right.
Qed.

Lemma unique_match (c : User) (us : list User) :
  NoDup (map username us) ->
  In c us ->
  filter (fun u => (username c =? username u)%string) us = [c].
Proof.
  induction us as [|x us IH]; intros Hnd Hin; [destruct Hin|].
  simpl in Hnd. inversion Hnd as [|? ? Hx Hnd']; subst.
  assert (Hrest : forall y, In y us -> username y <> username x).
  { intros y Hy E. apply Hx. rewrite <- E. now apply in_map. }
  simpl. destruct Hin as [->|Hin].
  - rewrite String.eqb_refl. f_equal.
    apply filter_none.
    intros y Hy. apply String.eqb_neq. intros E. apply (Hrest y Hy). now symmetry.
  - destruct (username c =? username x)%string eqn:E.
    + apply String.eqb_eq in E. exfalso. now apply (Hrest c Hin).
    + now apply IH.
Qed.

Lemma channel_aggregate (c : User) :
  NoDup (map username (users w)) ->
  In c (users w) ->
  UserModel.aggregate (Controller.channelPipeline (username c) viewerId) w
  = (Return [channel_view w viewerId c], w).
Proof.
  intros Hnd Hin. rewrite channel_aggregate_all.
  now rewrite (@unique_match c (users w) Hnd Hin).
Qed.

Lemma subscribed_iff (c : User) :
  existsb (fun s => viewerId =? subscriber s) (edges_toward w c) = true
  <-> exists s, In s (subscriptions w) /\ channel s = _id c /\ subscriber s = viewerId.
Proof.
  rewrite existsb_exists. unfold edges_toward. split.
  - intros (s & Hs & Hv). apply filter_In in Hs. destruct Hs as [Hs Hc].
    apply Nat.eqb_eq in Hc, Hv. exists s. auto.
  - intros (s & Hs & Hc & Hv). exists s. split.
    + apply filter_In. split; [assumption|]. apply Nat.eqb_eq. now symmetry.
    + apply Nat.eqb_eq. now symmetry.
Qed.

Lemma find_filter {A} (p : A -> bool) (l : list A) :
  filter p l = match find p l with
               | Some x => x :: tl (filter p l)
               | None => []
               end.
Proof.
  induction l as [|x l IH]; simpl; [reflexivity|].
  destruct (p x); [reflexivity | exact IH].
Qed.

(** Without any assumption on the store: the answer is the view of the
    first account that bears the username, and 404 when there is none. *)
Lemma getUserChannelProfile_first_match (name : string) :
  Js.trim name <> "" ->
  Controller.getUserChannelProfile (Controller.mkChannelRequest (Some name) viewerId) w
  = match find (fun u => (Js.toLowerCase name =? username u)%string) (users w) with
    | Some c =>
        (Return (Controller.respond 200 (VObj (channel_view w viewerId c))
                   "Channel data accessed successfully"), w)
    | None => (Throw (ApiError 404 "Channel does not exist" None), w)
    end.
Proof.
  intros Htrim. unfold Controller.getUserChannelProfile.
  cbn [Controller.params_username Controller.viewer].
  assert (Ht : Js.truthy (Js.trim name) = true).
  { unfold Js.truthy. apply negb_true_iff. now apply String.eqb_neq. }
  rewrite Ht.
  erewrite bind_return by apply channel_aggregate_all.
  rewrite find_filter. destruct (find _ _); reflexivity.
Qed.

End Channel.



(** The two viewers of the spec's example, on the stored edges
    alice to carol and bob to carol. *)
Example channel_of_carol :
  (exists d, fst (Controller.getUserChannelProfile
                    (Controller.mkChannelRequest (Some "carol") 1) Demo.world)
             = Return (Controller.respond 200 (VObj d) "Channel data accessed successfully")
             /\ field "subscribersCount" d = Some (VNum 2)
             /\ field "isCurrentUserSubscribe" d = Some (VBool true))
  /\ (exists d, fst (Controller.getUserChannelProfile
                       (Controller.mkChannelRequest (Some "carol") 26) Demo.world)
                = Return (Controller.respond 200 (VObj d) "Channel data accessed successfully")
                /\ field "isCurrentUserSubscribe" d = Some (VBool false)).
Proof. split; eexists; cbv; repeat split. Qed.

(** ** What the answers disclose *)

(** The selections used by [registerUser], [loginUser],
    [updateCoverImageFile] and [updateAvatarFile] drop the password. *)
Lemma select_strips_password (u : User) :
  field "password" (UserModel.select "-password -refreshToken" (userDoc u)) = None
  /\ field "refreshToken" (UserModel.select "-password -refreshToken" (userDoc u)) = None
  /\ field "password" (UserModel.select "-password" (userDoc u)) = None.
Proof. unfold userDoc. destruct (refreshToken u); repeat split. Qed.

(** C4 (as the code has it): [getCurrentUser] answers 200 with the whole
    account document, stored password hash included. *)
Theorem getCurrentUser_discloses_password :
  forall (w : World) (id : ObjectId),
    (exists u, In u (users w) /\ _id u = id) ->
    exists u,
      In u (users w) /\ _id u = id
      /\ Controller.getCurrentUser id w
         = (Return (Controller.respond 200 (VObj (userDoc u))
                      "Current user retrieved successfully"), w)
      /\ field "password" (userDoc u) = Some (VStr (password u)).
Proof.
  intros w id (u0 & Hin & Hid).
  destruct (find_exists (fun x => _id x =? id) _ _ Hin) as [u Hu].
  { now apply Nat.eqb_eq. }
  exists u. pose proof (find_some _ _ Hu) as [Hin' Hid'].
  apply Nat.eqb_eq in Hid'. repeat split; try assumption.
  unfold Controller.getCurrentUser.
  erewrite bind_return by apply findById_run. now rewrite Hu.
Qed.

Lemma getCurrentUser_discloses_password_witness :
  (exists u, In u (users Demo.world) /\ _id u = 1)
  /\ exists u,
      In u (users Demo.world) /\ _id u = 1
      /\ Controller.getCurrentUser 1 Demo.world
         = (Return (Controller.respond 200 (VObj (userDoc u))
                      "Current user retrieved successfully"), Demo.world)
      /\ field "password" (userDoc u) = Some (VStr (password u)).
Proof.
  assert (H : exists u, In u (users Demo.world) /\ _id u = 1).
  { exists Demo.alice. split; [left|]; reflexivity. }
  split; [exact H|].
  exact (getCurrentUser_discloses_password Demo.world H).
Defined.

(** [updateAccountDetails] answers with the whole document as well. *)
Example updateAccountDetails_discloses_password :
  match fst (Controller.updateAccountDetails
               (Controller.mkDetailsRequest 1 (Some "Alicia") None) Demo.world) with
  | Return r => body_field "password" r = VStr "hash:Secret#1"
  | Throw _ => False
  end.
Proof. reflexivity. Qed.

Example getCurrentUser_of_alice :
  match fst (Controller.getCurrentUser 1 Demo.world) with
  | Return r =>
      match data (json r) with
      | VObj d => field "password" d = Some (VStr "hash:Secret#1")
      | _ => False
      end
  | Throw _ => False
  end.
Proof. reflexivity. Qed.

(** ** Registration *)


Lemma lower_char_idempotent (c : ascii) :
  Js.lower_char (Js.lower_char c) = Js.lower_char c.
Proof.
  destruct c as [[] [] [] [] [] [] [] []]; reflexivity.
Qed.

Lemma toLowerCase_idempotent (s : string) :
  Js.toLowerCase (Js.toLowerCase s) = Js.toLowerCase s.
Proof.
  induction s as [|c s IH]; simpl; [reflexivity|].
  now rewrite lower_char_idempotent, IH.
Qed.

Section Register.

Context {C : Collaborators}.

Lemma register_blank (req : Controller.RegisterRequest) (w : World) :
  blank_field req = true ->
  Controller.registerUser req w
  = (Throw (ApiError 400 "All fields are required" None), w).
Proof.
  intros H. unfold Controller.registerUser.
  fold (blank_field req). rewrite H. reflexivity.
Qed.

Lemma register_existing (req : Controller.RegisterRequest) (w : World) (x : User) :
  blank_field req = false ->
  find (UserModel.matches (existing_query req)) (users w) = Some x ->
  Controller.registerUser req w
  = (Throw (ApiError 400 "User already exists" None), w).
Proof.
  intros Hb Hx. unfold Controller.registerUser.
  fold (blank_field req). rewrite Hb.
  erewrite bind_return by reflexivity.
  fold (existing_query req).
  erewrite bind_return by apply findOne_run.
  rewrite Hx. reflexivity.
Qed.

Lemma register_without_avatar (req : Controller.RegisterRequest) (w : World) :
  blank_field req = false ->
  find (UserModel.matches (existing_query req)) (users w) = None ->
  Js.truthy_opt (Controller.reg_avatar req) = false ->
  Controller.registerUser req w
  = (Throw (ApiError 500 "Internal server error during registration"
              (Some (ApiError 400 "Avatar image is required" None))), w).
Proof.
  intros Hb Hx Ha. unfold Controller.registerUser.
  fold (blank_field req). rewrite Hb.
  erewrite bind_return by reflexivity.
  fold (existing_query req).
  erewrite bind_return by apply findOne_run.
  rewrite Hx.
  erewrite bind_return by reflexivity.
  unfold try_catch.
  destruct (Controller.reg_avatar req) as [p|]; [|reflexivity].
  simpl in Ha. rewrite Ha. reflexivity.
Qed.

Lemma matches_existing (req : Controller.RegisterRequest) (u : User) :
  Js.toLowerCase (username u) = username u ->
  Js.toLowerCase (email u) = email u ->
  same_ignoring_case (Controller.reg_username req) (username u)
  \/ same_ignoring_case (Controller.reg_email req) (email u) ->
  UserModel.matches (existing_query req) u = true.
Proof.
  unfold same_ignoring_case. intros Hu He H. simpl.
  unfold UserModel.schema_username, UserModel.schema_email.
  destruct H as [H|H]; rewrite H.
  - rewrite Hu, String.eqb_refl. reflexivity.
  - rewrite He, String.eqb_refl. apply orb_true_iff. right. reflexivity.
Qed.

End Register.



(** What [create] adds to the store is case-folded, so the accounts it
    writes meet the two conditions above. *)
Lemma create_folds (C : Collaborators) (f : UserModel.fields) (w w' : World) (u : User) :
  UserModel.create f w = (Return u, w') ->
  users w' = users w ++ [u]
  /\ Js.toLowerCase (username u) = username u
  /\ Js.toLowerCase (email u) = email u.
Proof.
  unfold UserModel.create, bind, get_world, put_users, emit, ret, throw. cbn.
  destruct (UserModel.collides _ _); [discriminate|].
  intros H. inversion H; subst; clear H. cbn.
  repeat split; apply toLowerCase_idempotent.
Qed.

(** What holds of the validation: a required field that is blank after
    trimming fails the registration with status 400 and creates nothing. *)
Lemma registerUser_blank_is_400 :
  forall (C : Collaborators) (w : World) (req : Controller.RegisterRequest),
    blank_field req = true ->
    Controller.registerUser req w
    = (Throw (ApiError 400 "All fields are required" None), w).
Proof. intros. now apply register_blank. Qed.



(** With an avatar file the same request registers the account. *)
Example registerUser_with_avatar :
  match Controller.registerUser (C := Demo.collaborators)
          (Controller.mkRegisterRequest "Zoe" "zoe@x.org" "Zoe" "pw"
                                        (Some "z.png") None) Demo.world with
  | (Return r, w') =>
      status r = 200
      /\ map username (users w') = ["alice"; "bob"; "carol"; "zoe"]
      /\ match data (json r) with
         | VObj d => field "username" d = Some (VStr "zoe") /\ field "password" d = None
         | _ => False
         end
  | _ => False
  end.
Proof. cbv. repeat split. Qed.

(** ** Password change *)


Lemma existsb_first_line (p : ascii -> bool) (l : list ascii) :
  existsb p (Controller.first_line l) = true -> existsb p l = true.
Proof.
  induction l as [|c l IH]; simpl; [auto|].
  destruct (Js.is_line_terminator c); simpl; [discriminate|].
  intros H. apply orb_true_iff in H. apply orb_true_iff.
  destruct H; auto.
Qed.

(** The pattern of the controller accepts only passwords that the spec's
    predicate calls strong. *)
Lemma passwordRegex_strong (s : string) :
  Controller.passwordRegex_test s = true -> spec_strong s = true.
Proof.
  unfold Controller.passwordRegex_test, Controller.lookahead, spec_strong.
  intros H. repeat (apply andb_true_iff in H; destruct H as [H ?]).
  match goal with
  | B : (forallb _ _ && _)%bool = true |- _ => apply andb_true_iff in B; destruct B
  end.
  repeat (apply andb_true_iff; split); auto using existsb_first_line.
Qed.

(** It is stricter: a character outside the allowed class is refused. *)
Example passwordRegex_is_stricter :
  spec_strong "Abcdefgh1!#" = true /\ Controller.passwordRegex_test "Abcdefgh1!#" = false.
Proof. split; reflexivity. Qed.

Section Password.

Context {C : Collaborators}.

Variable w : World.
Variable req : Controller.PasswordRequest.
Variable u : User.
Hypothesis caller :
  find (fun x => _id x =? Controller.pw_user req) (users w) = Some u.

Lemma change_wrong_old :
  isPasswordCorrect (Controller.oldPassword req) (password u) = false ->
  Controller.currentPasswordChange req w
  = (Throw (ApiError 400 "Invalid old password" None), w).
Proof.
  intros H. unfold Controller.currentPasswordChange.
  erewrite bind_return by apply findById_run.
  rewrite caller, H. reflexivity.
Qed.

Lemma change_same :
  isPasswordCorrect (Controller.oldPassword req) (password u) = true ->
  isPasswordCorrect (Controller.newPassword req) (password u) = true ->
  Controller.currentPasswordChange req w
  = (Throw (ApiError 400 "New password cannot be the same as the old password" None), w).
Proof.
  intros H H'. unfold Controller.currentPasswordChange.
  erewrite bind_return by apply findById_run.
  rewrite caller, H, H'. reflexivity.
Qed.

Lemma change_weak :
  isPasswordCorrect (Controller.oldPassword req) (password u) = true ->
  isPasswordCorrect (Controller.newPassword req) (password u) = false ->
  Controller.passwordRegex_test (Controller.newPassword req) = false ->
  exists msg,
    Controller.currentPasswordChange req w = (Throw (ApiError 400 msg None), w).
Proof.
  intros H H' R. unfold Controller.currentPasswordChange.
  erewrite bind_return by apply findById_run.
  rewrite caller, H, H', R. eexists. reflexivity.
Qed.

Lemma change_rejected :
  current_password u (Controller.newPassword req)
  \/ spec_strong (Controller.newPassword req) = false ->
  exists msg,
    Controller.currentPasswordChange req w = (Throw (ApiError 400 msg None), w).
Proof.
  unfold current_password. intros H.
  destruct (isPasswordCorrect (Controller.oldPassword req) (password u)) eqn:Hold.
  - destruct (isPasswordCorrect (Controller.newPassword req) (password u)) eqn:Hnew.
    + eexists. now apply change_same.
    + apply change_weak; try assumption.
      destruct H as [H|H]; [discriminate|].
      destruct (Controller.passwordRegex_test _) eqn:R; [|reflexivity].
      apply passwordRegex_strong in R. congruence.
  - eexists. now apply change_wrong_old.
Qed.

End Password.

(** With a sound password check, the password whose hash is stored is the
    current one. *)
Lemma hashed_is_current {C : Collaborators} (u : User) (p : string) :
  (forall q, isPasswordCorrect q (hashPassword q) = true) ->
  password u = hashPassword p ->
  current_password u p.
Proof. intros H E. unfold current_password. rewrite E. apply H. Qed.

(** C7 as stated fails: a wrong old password is answered with status 400,
    not 401. *)
Lemma currentPasswordChange_wrong_old_is_not_401 :
  isPasswordCorrect (Collaborators := Demo.collaborators)
                    "guess" (password Demo.alice) = false
  /\ failure_status
       (fst (Controller.currentPasswordChange (C := Demo.collaborators)
               (Controller.mkPasswordRequest 1 "guess" "NewSecret!22") Demo.world))
     <> Some 401.
Proof. split; [reflexivity | discriminate]. Qed.

(** C7 (amended): when the old password supplied does not match the stored
    hash of the caller's account, [currentPasswordChange] fails with status
    400, "Invalid old password", and the store, the stored hash with it, is
    unchanged. *)
Theorem currentPasswordChange_wrong_old_is_400 :
  forall (C : Collaborators) (w : World) (req : Controller.PasswordRequest) (u : User),
    find (fun x => _id x =? Controller.pw_user req) (users w) = Some u ->
    isPasswordCorrect (Controller.oldPassword req) (password u) = false ->
    Controller.currentPasswordChange req w
    = (Throw (ApiError 400 "Invalid old password" None), w).
Proof. intros. eapply change_wrong_old; eassumption. Qed.

Lemma currentPasswordChange_wrong_old_is_400_witness :
  find (fun x => _id x =? 1) (users Demo.world) = Some Demo.alice
  /\ isPasswordCorrect (Collaborators := Demo.collaborators)
                       "guess" (password Demo.alice) = false
  /\ Controller.currentPasswordChange (C := Demo.collaborators)
       (Controller.mkPasswordRequest 1 "guess" "NewSecret!22") Demo.world
     = (Throw (ApiError 400 "Invalid old password" None), Demo.world).
Proof.
  split; [reflexivity|]. split; [reflexivity|].
  exact (@currentPasswordChange_wrong_old_is_400 Demo.collaborators Demo.world
           (Controller.mkPasswordRequest 1 "guess" "NewSecret!22") Demo.alice
           eq_refl eq_refl).
Defined.

(** C8: for the caller's account, a new password that is the current one,
    or that fails the strength predicate of the spec, is rejected with
    status 400 and the store is unchanged; ["short1!"] is short of ten
    characters, ["alllowercase1!"] has no uppercase letter and
    ["NoDigits!!"] has no digit, so each of the three is rejected. *)
Theorem currentPasswordChange_rejects_same_or_weak :
  forall (C : Collaborators) (w : World) (req : Controller.PasswordRequest) (u : User),
    find (fun x => _id x =? Controller.pw_user req) (users w) = Some u ->
    (current_password u (Controller.newPassword req)
     \/ spec_strong (Controller.newPassword req) = false ->
     exists msg,
       Controller.currentPasswordChange req w = (Throw (ApiError 400 msg None), w))
    /\ (String.length "short1!" <? 10) = true
    /\ existsb Js.is_upper (Js.chars "alllowercase1!") = false
    /\ existsb Js.is_digit (Js.chars "NoDigits!!") = false
    /\ (In (Controller.newPassword req) ["short1!"; "alllowercase1!"; "NoDigits!!"] ->
        exists msg,
          Controller.currentPasswordChange req w = (Throw (ApiError 400 msg None), w)).
Proof.
  intros C w req u Hu. split; [|split; [|split; [|split]]]; try reflexivity.
  - intros H. eapply change_rejected; eassumption.
  - intros Hin. eapply change_rejected; [eassumption|]. right.
    destruct Hin as [<-|[<-|[<-|[]]]]; reflexivity.
Qed.

Lemma currentPasswordChange_rejects_same_or_weak_witness :
  find (fun x => _id x =? 1) (users Demo.world) = Some Demo.alice
  /\ current_password (C := Demo.collaborators) Demo.alice "Secret#1"
  /\ spec_strong "NoDigits!!" = false
  /\ (exists msg,
         Controller.currentPasswordChange (C := Demo.collaborators)
           (Controller.mkPasswordRequest 1 "Secret#1" "Secret#1") Demo.world
         = (Throw (ApiError 400 msg None), Demo.world))
  /\ (exists msg,
         Controller.currentPasswordChange (C := Demo.collaborators)
           (Controller.mkPasswordRequest 1 "Secret#1" "NoDigits!!") Demo.world
         = (Throw (ApiError 400 msg None), Demo.world)).
Proof.
  split; [reflexivity|]. split; [reflexivity|]. split; [reflexivity|]. split.
  - apply (proj1 (@currentPasswordChange_rejects_same_or_weak Demo.collaborators
                    Demo.world (Controller.mkPasswordRequest 1 "Secret#1" "Secret#1")
                    Demo.alice eq_refl)).
    left. reflexivity.
  - apply (proj1 (@currentPasswordChange_rejects_same_or_weak Demo.collaborators
                    Demo.world (Controller.mkPasswordRequest 1 "Secret#1" "NoDigits!!")
                    Demo.alice eq_refl)).
    right. reflexivity.
Defined.

(** A password that is new and passes the pattern is stored, hashed. *)
Example currentPasswordChange_accepts :
  match Controller.currentPasswordChange (C := Demo.collaborators)
          (Controller.mkPasswordRequest 1 "Secret#1" "NewSecret!22") Demo.world with
  | (Return r, w') =>
      status r = 200 /\ map password (users w') = ["hash:NewSecret!22"; "hash:pw"; "hash:pw"]
  | _ => False
  end.
Proof. cbv. split; reflexivity. Qed.

(** ** Avatar and cover image *)

Lemma truthy_nonempty (s : string) : s <> "" -> Js.truthy s = true.
Proof. intros H. unfold Js.truthy. apply negb_true_iff. now apply String.eqb_neq. Qed.

Section Media.

Context {C : Collaborators}.

Variable w : World.
Variable req : Controller.FileRequest.
Variable u : User.
Variables path url : string.
Hypothesis caller :
  find (fun x => _id x =? Controller.file_user req) (users w) = Some u.
Hypothesis staged : Controller.file_path req = Some path.
Hypothesis staged_path : path <> "".
Hypothesis uploaded : cloudinary_upload path = Some url.
Hypothesis uploaded_url : url <> "".

Lemma updateAvatarFile_trace :
  exists r w',
    Controller.updateAvatarFile req w = (Return r, w')
    /\ users w' = UserModel.replace (UserModel.apply (UserModel.SetAvatar url) u) (users w)
    /\ trace w'
       = trace w
         ++ [Uploaded path]
         ++ (if Js.truthy (avatar u) && negb (avatar u =? url)%string
             then [Deleted (avatar u)] else [])
         ++ [DbWrite (UserModel.apply (UserModel.SetAvatar url) u)].
Proof.
  unfold Controller.updateAvatarFile.
  erewrite bind_return by apply findById_run.
  rewrite caller, staged. cbn [Js.truthy_opt]. rewrite (truthy_nonempty staged_path).
  unfold Controller.uploadOnCloudinary.
  unfold bind at 1. unfold bind at 1. cbn [emit ret].
  rewrite uploaded. cbn [Js.truthy_opt]. rewrite (truthy_nonempty uploaded_url).
  destruct (Js.truthy (avatar u) && negb (avatar u =? url)%string);
    unfold Controller.deleteCloudinaryImage, UserModel.findByIdAndUpdate,
           UserModel.write, UserModel.findById, bind, emit, put_users, get_world, ret;
    cbn; rewrite caller; cbn; rewrite String.eqb_refl; cbn;
    do 2 eexists; (split; [reflexivity|]); split; try reflexivity;
    now rewrite <- !app_assoc.
Qed.

Lemma updateCoverImageFile_trace :
  exists r w',
    Controller.updateCoverImageFile req w = (Return r, w')
    /\ users w'
       = UserModel.replace (UserModel.apply (UserModel.SetCoverImage url) u) (users w)
    /\ trace w'
       = trace w
         ++ [Uploaded path]
         ++ [DbWrite (UserModel.apply (UserModel.SetCoverImage url) u)]
         ++ (if Js.truthy (coverImage u) && negb (coverImage u =? url)%string
             then [Deleted (coverImage u)] else []).
Proof.
  unfold Controller.updateCoverImageFile.
  erewrite bind_return by apply findById_run.
  rewrite caller, staged. cbn [Js.truthy_opt]. rewrite (truthy_nonempty staged_path).
  unfold Controller.uploadOnCloudinary.
  unfold bind at 1. unfold bind at 1. cbn [emit ret].
  rewrite uploaded. cbn [Js.truthy_opt]. rewrite (truthy_nonempty uploaded_url).
  unfold Controller.deleteCloudinaryImage, UserModel.findByIdAndUpdate,
         UserModel.write, UserModel.findById, bind, emit, put_users, get_world, ret.
  cbn. rewrite caller. cbn. rewrite String.eqb_refl. cbn.
  destruct (Js.truthy (coverImage u) && negb (coverImage u =? url)%string);
    cbn; do 2 eexists; (split; [reflexivity|]); split; try reflexivity;
    cbn; now rewrite <- !app_assoc.
Qed.

End Media.

(** C9 (as the code has it): on a successful [updateAvatarFile] that
    replaces a different previous asset, the previous asset is deleted from
    the object storage before the new reference is written to the account:
    the effects are the upload, the deletion, then the write to the store. *)
Theorem updateAvatarFile_deletes_before_persisting :
  forall (C : Collaborators) (w : World) (req : Controller.FileRequest) (u : User)
         (path url : string),
    find (fun x => _id x =? Controller.file_user req) (users w) = Some u ->
    Controller.file_path req = Some path ->
    path <> "" ->
    cloudinary_upload path = Some url ->
    url <> "" ->
    avatar u <> "" ->
    avatar u <> url ->
    exists r w',
      Controller.updateAvatarFile req w = (Return r, w')
      /\ trace w'
         = trace w ++ [ Uploaded path;
                        Deleted (avatar u);
                        DbWrite (UserModel.apply (UserModel.SetAvatar url) u) ].
Proof.
  intros C w req u path url Hu Hp Hp' Hup Hurl Hold Hdiff.
  destruct (updateAvatarFile_trace w req Hu Hp Hp' Hup Hurl) as (r & w' & E & _ & T).
  exists r, w'. split; [assumption|].
  rewrite T, (truthy_nonempty Hold).
  apply String.eqb_neq in Hdiff. rewrite Hdiff. reflexivity.
Qed.

Lemma updateAvatarFile_deletes_before_persisting_witness :
  find (fun x => _id x =? 1) (users Demo.world) = Some Demo.alice
  /\ cloudinary_upload (Collaborators := Demo.collaborators) "new.png"
     = Some "https://cdn/new.png"
  /\ avatar Demo.alice <> "https://cdn/new.png"
  /\ exists r w',
      Controller.updateAvatarFile (C := Demo.collaborators)
        (Controller.mkFileRequest 1 (Some "new.png")) Demo.world = (Return r, w')
      /\ trace w'
         = trace Demo.world
           ++ [ Uploaded "new.png";
                Deleted (avatar Demo.alice);
                DbWrite (UserModel.apply (UserModel.SetAvatar "https://cdn/new.png")
                                         Demo.alice) ].
Proof.
  split; [reflexivity|]. split; [reflexivity|]. split; [discriminate|].
  apply (@updateAvatarFile_deletes_before_persisting Demo.collaborators Demo.world
           (Controller.mkFileRequest 1 (Some "new.png")) Demo.alice
           "new.png" "https://cdn/new.png");
    try reflexivity; discriminate.
Defined.

(** The sibling [updateCoverImageFile] writes to the store first and
    deletes afterwards. *)
Lemma updateCoverImageFile_persists_before_deleting :
  forall (C : Collaborators) (w : World) (req : Controller.FileRequest) (u : User)
         (path url : string),
    find (fun x => _id x =? Controller.file_user req) (users w) = Some u ->
    Controller.file_path req = Some path ->
    path <> "" ->
    cloudinary_upload path = Some url ->
    url <> "" ->
    coverImage u <> "" ->
    coverImage u <> url ->
    exists r w',
      Controller.updateCoverImageFile req w = (Return r, w')
      /\ trace w'
         = trace w ++ [ Uploaded path;
                        DbWrite (UserModel.apply (UserModel.SetCoverImage url) u);
                        Deleted (coverImage u) ].
Proof.
  intros C w req u path url Hu Hp Hp' Hup Hurl Hold Hdiff.
  destruct (updateCoverImageFile_trace w req Hu Hp Hp' Hup Hurl) as (r & w' & E & _ & T).
  exists r, w'. split; [assumption|].
  rewrite T, (truthy_nonempty Hold).
  apply String.eqb_neq in Hdiff. rewrite Hdiff. reflexivity.
Qed.

(** What holds of the avatar path all the same: the previous avatar is
    deleted exactly when it existed and differs from the new reference; an
    identical reference deletes nothing. *)
Lemma updateAvatarFile_deletes_iff :
  forall (C : Collaborators) (w : World) (req : Controller.FileRequest) (u : User)
         (path url : string),
    find (fun x => _id x =? Controller.file_user req) (users w) = Some u ->
    Controller.file_path req = Some path ->
    path <> "" ->
    cloudinary_upload path = Some url ->
    url <> "" ->
    exists r w' events,
      Controller.updateAvatarFile req w = (Return r, w')
      /\ trace w' = trace w ++ events
      /\ (In (Deleted (avatar u)) events <-> avatar u <> "" /\ avatar u <> url)
      /\ (forall x, In (Deleted x) events -> x = avatar u).
Proof.
  intros C w req u path url Hu Hp Hp' Hup Hurl.
  destruct (updateAvatarFile_trace w req Hu Hp Hp' Hup Hurl) as (r & w' & E & _ & T).
  exists r, w'. eexists. split; [eassumption|]. split; [exact T|].
  assert (Hcond : Js.truthy (avatar u) && negb (avatar u =? url)%string = true
                  <-> avatar u <> "" /\ avatar u <> url).
  { unfold Js.truthy. rewrite andb_true_iff, !negb_true_iff, !String.eqb_neq. tauto. }
  destruct (Js.truthy (avatar u) && negb (avatar u =? url)%string); cbn; split.
  - split; [intros _; now apply Hcond | intros _; right; now left].
  - intros x [H|[H|[H|[]]]]; try discriminate. now inversion H.
  - split; [intros [H|[H|[]]]; discriminate|].
    intros H. apply Hcond in H. discriminate.
  - intros x [H|[H|[]]]; discriminate.
Qed.

(** ** Profile update *)

Lemma strict_eq_same (s : string) : Controller.strict_eq (Some s) s = true.
Proof. apply String.eqb_refl. Qed.

(** The username check that opens [updateAccountDetails] either fails with
    status 400 or lets the request through; it writes nothing. *)
Lemma username_check (name : option string) (userId : ObjectId) (w : World) :
  let check :=
    match name with
    | Some n =>
        if Js.truthy n then
          existingUser <- UserModel.findOne (UserModel.ByUsername n) ;;
          throw_if (match existingUser with
                    | Some e => negb (_id e =? userId)
                    | None => false
                    end)
                   400 "Username already exists. Try another one "
        else ret tt
    | None => ret tt
    end in
  check w = (Return tt, w)
  \/ check w = (Throw (ApiError 400 "Username already exists. Try another one " None), w).
Proof.
  cbv zeta. destruct name as [n|]; [|now left].
  destruct (Js.truthy n); [|now left].
  erewrite bind_return by apply findOne_run.
  destruct (find _ _) as [e|]; [|now left].
  destruct (negb (_id e =? userId)); [now right | now left].
Qed.

(** C10: when the full name supplied, or the username supplied, is the one
    stored on the caller's account, [updateAccountDetails] fails with status
    400 whatever the other field holds, and the store is unchanged. *)
Theorem updateAccountDetails_rejects_unchanged_field :
  forall (w : World) (req : Controller.DetailsRequest) (u : User),
    find (fun x => _id x =? Controller.det_user req) (users w) = Some u ->
    Controller.det_fullName req = Some (fullName u)
    \/ Controller.det_username req = Some (username u) ->
    exists msg,
      Controller.updateAccountDetails req w = (Throw (ApiError 400 msg None), w).
Proof.
  intros w req u Hu Hsame. unfold Controller.updateAccountDetails.
  destruct (username_check (Controller.det_username req) (Controller.det_user req) w)
    as [Hok|Hko]; cbv zeta in *.
  - erewrite bind_return by exact Hok.
    erewrite bind_return by apply findById_run.
    rewrite Hu.
    assert (Heq : Controller.strict_eq (Controller.det_fullName req) (fullName u)
                  || Controller.strict_eq (Controller.det_username req) (username u)
                  = true).
    { apply orb_true_iff. destruct Hsame as [->| ->]; [left|right]; apply strict_eq_same. }
    rewrite Heq. eexists. reflexivity.
  - erewrite bind_throw by exact Hko. eexists. reflexivity.
Qed.

Lemma updateAccountDetails_rejects_unchanged_field_witness :
  find (fun x => _id x =? 1) (users Demo.world) = Some Demo.alice
  /\ exists msg,
      Controller.updateAccountDetails
        (Controller.mkDetailsRequest 1 (Some "Alice") (Some "alice-the-second"))
        Demo.world
      = (Throw (ApiError 400 msg None), Demo.world).
Proof.
  split; [reflexivity|].
  exact (@updateAccountDetails_rejects_unchanged_field Demo.world
           (Controller.mkDetailsRequest 1 (Some "Alice") (Some "alice-the-second"))
           Demo.alice eq_refl (or_introl eq_refl)).
Defined.

(** With both fields new, the update goes through. *)
Example updateAccountDetails_accepts :
  match Controller.updateAccountDetails
          (Controller.mkDetailsRequest 1 (Some "Alicia") (Some "Alice2")) Demo.world with
  | (Return r, w') =>
      status r = 200 /\ map username (users w') = ["alice2"; "bob"; "carol"]
      /\ map fullName (users w') = ["Alicia"; "Bob"; "Carol"]
  | _ => False
  end.
Proof. cbv. repeat split. Qed.

(** * Further properties of the controller *)

(** ** Writes to the store *)

Lemma replace_ids (u : User) (us : list User) :
  map _id (UserModel.replace u us) = map _id us.
Proof.
  unfold UserModel.replace. rewrite map_map. apply map_ext_in. intros x _.
  destruct (_id x =? _id u) eqn:E; [|reflexivity].
  apply Nat.eqb_eq in E. now symmetry.
Qed.

Lemma find_replace (u : User) (us : list User) (x : User) :
  find (fun y => _id y =? _id u) us = Some x ->
  find (fun y => _id y =? _id u) (UserModel.replace u us) = Some u.
Proof.
  induction us as [|y us IH]; simpl; [discriminate|].
  destruct (_id y =? _id u) eqn:E; simpl.
  - now rewrite Nat.eqb_refl.
  - rewrite E. exact IH.
Qed.

Lemma replace_idempotent (u : User) (us : list User) :
  UserModel.replace u (UserModel.replace u us) = UserModel.replace u us.
Proof.
  unfold UserModel.replace. rewrite map_map. apply map_ext. intros x.
  destruct (_id x =? _id u) eqn:E; [now rewrite Nat.eqb_refl | now rewrite E].
Qed.

Lemma In_replace_inv (u x : User) (us : list User) :
  In x (UserModel.replace u us) ->
  x = u \/ (In x us /\ _id x <> _id u).
Proof.
  unfold UserModel.replace. intros H. apply in_map_iff in H.
  destruct H as (y & Hy & Hin). destruct (_id y =? _id u) eqn:E.
  - now left.
  - right. subst y. split; [assumption|]. now apply Nat.eqb_neq.
Qed.

Lemma In_replace_other (u x : User) (us : list User) :
  In x us -> _id x <> _id u -> In x (UserModel.replace u us).
Proof.
  intros Hin Hne. unfold UserModel.replace. apply in_map_iff. exists x.
  split; [|assumption]. apply Nat.eqb_neq in Hne. now rewrite Hne.
Qed.

Lemma find_id (id : ObjectId) (us : list User) (u : User) :
  find (fun x => _id x =? id) us = Some u -> _id u = id.
Proof. intros H. apply find_some in H. now apply Nat.eqb_eq. Qed.

(** An update that leaves the username alone is written without a look at
    the other accounts. *)
Lemma findByIdAndUpdate_run (id : ObjectId) (ups : list UserModel.update)
      (w : World) (u : User) :
  find (fun x => _id x =? id) (users w) = Some u ->
  username (fold_left (fun acc up => UserModel.apply up acc) ups u) = username u ->
  UserModel.findByIdAndUpdate id ups w
  = (Return (Some (fold_left (fun acc up => UserModel.apply up acc) ups u)),
     mkWorld (UserModel.replace (fold_left (fun acc up => UserModel.apply up acc) ups u)
                                (users w))
             (subscriptions w) (videos w) (now w)
             (trace w ++ [DbWrite (fold_left (fun acc up => UserModel.apply up acc) ups u)])).
Proof.
  intros Hu Hname. unfold UserModel.findByIdAndUpdate.
  erewrite bind_return by apply findById_run. rewrite Hu.
  unfold bind, get_world. rewrite Hname, String.eqb_refl. reflexivity.
Qed.

Lemma findByIdAndUpdate_absent (id : ObjectId) (ups : list UserModel.update) (w : World) :
  find (fun x => _id x =? id) (users w) = None ->
  UserModel.findByIdAndUpdate id ups w = (Return None, w).
Proof.
  intros Hu. unfold UserModel.findByIdAndUpdate.
  erewrite bind_return by apply findById_run. now rewrite Hu.
Qed.

(** ** Logout *)

(** X1: [logoutUser] always answers 200 and clears the two cookies; after it
    no account with the caller's identifier holds a refresh token, the other
    accounts are as they were, and a second logout leaves the accounts as
    the first did. *)
Theorem logoutUser_clears_token :
  forall (w : World) (id : ObjectId),
    exists w',
      Controller.logoutUser id w
      = (Return (mkResponse 200 []
                   [("accessToken", Controller.option_);
                    ("refreshToken", Controller.option_)]
                   (mkApiResponse 200 (VObj []) "User logged out successfully")), w')
      /\ (forall x, In x (users w') -> _id x = id -> refreshToken x = None)
      /\ (forall x, _id x <> id -> (In x (users w') <-> In x (users w)))
      /\ users (snd (Controller.logoutUser id w')) = users w'.
Proof.
  intros w id. unfold Controller.logoutUser.
  destruct (find (fun x => _id x =? id) (users w)) as [u|] eqn:Hu.
  - pose proof (find_id _ _ Hu) as Hid.
    set (u' := UserModel.apply UserModel.UnsetRefreshToken u).
    assert (Hid' : _id u' = id) by exact Hid.
    set (w1 := mkWorld (UserModel.replace u' (users w)) (subscriptions w) (videos w)
                       (now w) (trace w ++ [DbWrite u'])).
    exists w1. split.
    { erewrite bind_return; [reflexivity|].
      apply (findByIdAndUpdate_run id [UserModel.UnsetRefreshToken] w Hu). reflexivity. }
    split; [|split].
    + intros x Hx Hxid. apply In_replace_inv in Hx.
      destruct Hx as [->|[_ Hne]]; [reflexivity|].
      exfalso. apply Hne. rewrite Hxid. symmetry. exact Hid'.
    + intros x Hne. split.
      * intros Hx. apply In_replace_inv in Hx. destruct Hx as [->|[Hx _]]; [|assumption].
        exfalso. now apply Hne.
      * intros Hx. apply In_replace_other; [assumption|].
        intros E. apply Hne. rewrite E. exact Hid'.
    + assert (Hf : find (fun x => _id x =? id) (users w1) = Some u').
      { rewrite <- Hid'. apply find_replace with (x := u). now rewrite Hid'. }
      erewrite bind_return;
        [|apply (findByIdAndUpdate_run id [UserModel.UnsetRefreshToken] w1 Hf); reflexivity].
      cbn [snd users fold_left].
      change (UserModel.apply UserModel.UnsetRefreshToken u') with u'.
      apply replace_idempotent.
  - eexists. split.
    { erewrite bind_return; [reflexivity|]. now apply findByIdAndUpdate_absent. }
    split; [|split].
    + intros x Hx Hxid. eapply find_none in Hu; [|exact Hx].
      apply Nat.eqb_neq in Hu. contradiction.
    + intros x _. reflexivity.
    + erewrite bind_return; [reflexivity|]. now apply findByIdAndUpdate_absent.
Qed.

(** ** Login *)

Section Login.

Context {C : Collaborators}.

(** The world after the refresh token [t] has been saved on [u]. *)
Lemma genarate_run (id : ObjectId) (w : World) (u : User) :
  find (fun x => _id x =? id) (users w) = Some u ->
  Controller.genarateAccessTokenAndRefreshToken id w
  = (Return [ ("accessToken", VStr (generateAccessToken u (now w)));
              ("refreshToken", VStr (generateRefreshToken u (now w))) ],
     mkWorld (UserModel.replace
                (UserModel.set_refreshToken (generateRefreshToken u (now w)) u) (users w))
             (subscriptions w) (videos w) (now w)
             (trace w ++ [DbWrite (UserModel.set_refreshToken
                                     (generateRefreshToken u (now w)) u)])).
Proof.
  intros Hu. unfold Controller.genarateAccessTokenAndRefreshToken, try_catch, bind.
  rewrite findById_run, Hu. reflexivity.
Qed.

Lemma genarate_absent (id : ObjectId) (w : World) :
  find (fun x => _id x =? id) (users w) = None ->
  Controller.genarateAccessTokenAndRefreshToken id w
  = (Throw (ApiError 500
              "Something went wrong for generate Access token or Refresh token" None), w).
Proof.
  intros Hu. unfold Controller.genarateAccessTokenAndRefreshToken, try_catch, bind.
  rewrite findById_run, Hu. reflexivity.
Qed.

Lemma loginUser_run (req : Controller.LoginRequest) (w : World) (e : string) (u : User) :
  Controller.login_email req = Some e ->
  e <> "" ->
  find (UserModel.matches (UserModel.ByEmail (Js.toLowerCase e))) (users w) = Some u ->
  find (fun x => _id x =? _id u) (users w) = Some u ->
  isPasswordCorrect (Controller.login_password req) (password u) = true ->
  let a := generateAccessToken u (now w) in
  let t := generateRefreshToken u (now w) in
  let u' := UserModel.set_refreshToken t u in
  Controller.loginUser req w
  = (Return (mkResponse 200
               [ mkCookie "accessToken" (VStr a) [];
                 mkCookie "refreshToken" (VStr t) Controller.option_ ]
               []
               (mkApiResponse 200
                  (VObj [ ("user", VObj (UserModel.select "-password -refreshToken"
                                                          (userDoc u')));
                          ("accessToken", VStr a);
                          ("refreshToken", VStr t) ])
                  "User logged in successfully")),
     mkWorld (UserModel.replace u' (users w)) (subscriptions w) (videos w) (now w)
             (trace w ++ [DbWrite u'])).
Proof.
  intros He Hne Hfind Hid Hpw a t u'.
  unfold Controller.loginUser. rewrite He, (truthy_nonempty Hne).
  erewrite bind_return by apply findOne_run. rewrite Hfind, Hpw.
  erewrite bind_return by reflexivity.
  erewrite bind_return by (apply genarate_run; exact Hid).
  erewrite bind_return by apply findById_run.
  cbn [users].
  assert (Hf : find (fun x => _id x =? _id u) (UserModel.replace u' (users w)) = Some u').
  { change (_id u) with (_id u'). apply find_replace with (x := u). exact Hid. }
  fold t. fold u'. rewrite Hf. reflexivity.
Qed.

End Login.





(** ** Registration, once more *)

Lemma fresh_id_above (us : list User) (x : User) :
  In x us -> _id x < UserModel.fresh_id us.
Proof.
  unfold UserModel.fresh_id. induction us as [|y us IH]; intros Hin; [destruct Hin|].
  simpl. destruct Hin as [->|Hin].
  - apply (proj2 (Nat.lt_succ_r _ _)), Nat.le_max_l.
  - apply IH in Hin. apply (proj1 (Nat.lt_succ_r _ _)) in Hin.
    apply (proj2 (Nat.lt_succ_r _ _)).
    apply (Nat.le_trans _ _ _ Hin). apply Nat.le_max_r.
Qed.

Lemma fresh_id_unused (us : list User) :
  find (fun x => _id x =? UserModel.fresh_id us) us = None.
Proof.
  destruct (find _ us) as [x|] eqn:F; [|reflexivity].
  apply find_some in F. destruct F as [Hin E]. apply Nat.eqb_eq in E.
  apply fresh_id_above in Hin. rewrite E in Hin. now apply Nat.lt_irrefl in Hin.
Qed.

Lemma find_app_new (id : ObjectId) (us : list User) (u : User) :
  find (fun x => _id x =? id) us = None ->
  _id u = id ->
  find (fun x => _id x =? id) (us ++ [u]) = Some u.
Proof.
  intros Hnone Hid. induction us as [|y us IH]; simpl in *.
  - now rewrite Hid, Nat.eqb_refl.
  - destruct (_id y =? id); [discriminate | now apply IH].
Qed.

Section Registered.

Context {C : Collaborators}.

(** The account [create] makes of a request, given the reference of its
    avatar and of its cover image. *)
Lemma create_run (f : UserModel.fields) (w : World) :
  UserModel.collides
    (mkUser (UserModel.fresh_id (users w))
            (UserModel.schema_username (UserModel.new_username f))
            (UserModel.schema_email (UserModel.new_email f))
            (UserModel.new_fullName f) (UserModel.new_avatar f)
            (UserModel.new_coverImage f)
            (hashPassword (UserModel.new_password f)) None [])
    (users w) = false ->
  let u := mkUser (UserModel.fresh_id (users w))
                  (UserModel.schema_username (UserModel.new_username f))
                  (UserModel.schema_email (UserModel.new_email f))
                  (UserModel.new_fullName f) (UserModel.new_avatar f)
                  (UserModel.new_coverImage f)
                  (hashPassword (UserModel.new_password f)) None [] in
  UserModel.create f w
  = (Return u, mkWorld (users w ++ [u]) (subscriptions w) (videos w) (now w)
                       (trace w ++ [DbWrite u])).
Proof.
  intros H u. unfold UserModel.create, bind, get_world. cbv zeta.
  fold u. fold u in H. rewrite H. reflexivity.
Qed.

Lemma no_match_no_collision (req : Controller.RegisterRequest) (us : list User) (u : User) :
  (forall x, In x us -> UserModel.matches (existing_query req) x = false) ->
  username u = UserModel.schema_username (Controller.reg_username req) ->
  email u = UserModel.schema_email (Controller.reg_email req) ->
  UserModel.collides u us = false.
Proof.
  intros H Hn He. unfold UserModel.collides.
  apply not_true_is_false. intros E. apply existsb_exists in E.
  destruct E as (x & Hx & Ex). apply H in Hx. simpl in Hx.
  rewrite orb_false_r in Hx. rewrite Hn, He in Ex.
  apply andb_true_iff in Ex. destruct Ex as [_ Ex]. congruence.
Qed.

End Registered.

Section Registration.

Context {C : Collaborators}.

Variable w : World.
Variable req : Controller.RegisterRequest.
Variables path url : string.
Hypothesis filled : blank_field req = false.
Hypothesis free :
  forall x, In x (users w) -> UserModel.matches (existing_query req) x = false.
Hypothesis staged : Controller.reg_avatar req = Some path.
Hypothesis staged_path : path <> "".
Hypothesis uploaded : cloudinary_upload path = Some url.
Hypothesis no_cover : Controller.reg_coverImage req = None.

Lemma free_find :
  find (UserModel.matches (existing_query req)) (users w) = None.
Proof.
  destruct (find _ _) as [x|] eqn:F; [|reflexivity].
  apply find_some in F. destruct F as [Hin Hm]. rewrite (free x Hin) in Hm. discriminate.
Qed.

Lemma registerUser_run :
  Controller.registerUser req w
  = (Return (Controller.respond 200
               (VObj (UserModel.select "-password -refreshToken"
                                       (userDoc (registered req w url))))
               "User registered successfully"),
     mkWorld (users w ++ [registered req w url]) (subscriptions w) (videos w) (now w)
             (trace w ++ [Uploaded path; DbWrite (registered req w url)])).
Proof.
  unfold Controller.registerUser.
  fold (blank_field req). rewrite filled.
  erewrite bind_return by reflexivity.
  fold (existing_query req).
  erewrite bind_return by apply findOne_run.
  rewrite free_find.
  erewrite bind_return by reflexivity.
  unfold try_catch. rewrite staged, (truthy_nonempty staged_path), no_cover.
  unfold Controller.uploadOnCloudinary.
  unfold bind at 1. unfold bind at 1. cbn [emit ret]. rewrite uploaded.
  unfold bind at 1. cbn [ret].
  unfold bind at 1.
  rewrite create_run.
  2:{ cbn [users]. apply no_match_no_collision with (req := req); [exact free| |]; reflexivity. }
  cbv zeta. cbn [users subscriptions videos now trace].
  unfold bind at 1. rewrite findById_run. cbn [users _id].
  match goal with
  | |- context [users w ++ [?u]] => change u with (registered req w url)
  end.
  rewrite (@find_app_new (UserModel.fresh_id (users w)) (users w) (registered req w url)
             (fresh_id_unused (users w)) eq_refl).
  unfold ret. rewrite <- app_assoc. reflexivity.
Qed.

End Registration.

Lemma find_app_last {A} (p : A -> bool) (l : list A) (u : A) :
  (forall x, In x l -> p x = false) ->
  p u = true ->
  find p (l ++ [u]) = Some u.
Proof.
  intros Hl Hu. induction l as [|y l IH]; simpl.
  - now rewrite Hu.
  - rewrite (Hl y (or_introl eq_refl)). apply IH. intros x Hx. apply Hl. now right.
Qed.







(** ** The read-only queries *)

(** X7: [getWatchHistory] never throws and never changes the world: for an
    identifier that some account bears it answers 200 with an empty list,
    and for any other it answers, as a response and not as an error, 404
    with an empty object. *)
Theorem getWatchHistory_never_throws :
  forall (w : World) (id : ObjectId),
    Controller.getWatchHistory id w
    = (Return (if existsb (fun u => id =? _id u) (users w)
               then Controller.respond 200 (VArr []) "Watch history accessed successfully"
               else Controller.respond 404 (VObj []) "No watch history found"), w).
Proof.
  intros w id. unfold Controller.getWatchHistory.
  erewrite bind_return by apply watchHistory_aggregate.
  induction (users w) as [|u us IH]; [reflexivity|].
  cbn [filter existsb]. destruct (id =? _id u); cbn [map orb].
  - unfold prop. rewrite field_set_field. reflexivity.
  - exact IH.
Qed.





(** ** The password pattern, exactly *)

Lemma allowed_not_terminator (c : ascii) :
  Controller.allowed c = true -> Js.is_line_terminator c = false.
Proof. destruct c as [[] [] [] [] [] [] [] []]; cbv; congruence. Qed.

Lemma first_line_allowed (l : list ascii) :
  forallb Controller.allowed l = true -> Controller.first_line l = l.
Proof.
  induction l as [|c l IH]; simpl; [reflexivity|].
  intros H. apply andb_true_iff in H. destruct H as [Hc Hl].
  rewrite (allowed_not_terminator c Hc). now rewrite IH.
Qed.

(** X10: the password pattern accepts a string exactly when it has ten
    characters or more, all of them letters, digits or one of the seven
    symbols, with a lowercase letter, an uppercase letter, a digit and a
    symbol among them. *)
Theorem passwordRegex_exact :
  forall s : string,
    Controller.passwordRegex_test s
    = spec_strong s && forallb Controller.allowed (Js.chars s).
Proof.
  intros s. unfold Controller.passwordRegex_test, Controller.lookahead, spec_strong.
  destruct (forallb Controller.allowed (Js.chars s)) eqn:F.
  - rewrite (first_line_allowed _ F).
    destruct (10 <=? String.length s); cbn; rewrite ?andb_true_r, ?andb_false_r;
      reflexivity.
  - cbn. now rewrite !andb_false_r.
Qed.

(** ** Password change, when it goes through *)

Lemma change_goes_through (C : Collaborators) (w : World)
      (req : Controller.PasswordRequest) (u : User) :
  find (fun x => _id x =? Controller.pw_user req) (users w) = Some u ->
  isPasswordCorrect (Controller.oldPassword req) (password u) = true ->
  isPasswordCorrect (Controller.newPassword req) (password u) = false ->
  Controller.passwordRegex_test (Controller.newPassword req) = true ->
  Controller.currentPasswordChange req w
  = (Return (Controller.respond 200 (VObj []) "Password changed successfully"),
     mkWorld (UserModel.replace
                (UserModel.set_password (hashPassword (Controller.newPassword req)) u)
                (users w))
             (subscriptions w) (videos w) (now w)
             (trace w ++ [DbWrite (UserModel.set_password
                                     (hashPassword (Controller.newPassword req)) u)])).
Proof.
  intros Hu Hold Hnew Hre. unfold Controller.currentPasswordChange.
  erewrite bind_return by apply findById_run.
  rewrite Hu, Hold, Hnew, Hre. reflexivity.
Qed.

(** X11: for the caller's account, with an old password that passes, a new
    password that is not the current one and that the pattern accepts,
    [currentPasswordChange] answers 200 with an empty object and stores the
    hash of the new password; the refresh token of the account stays as it
    was, so the session is not revoked.  Without an account for the caller
    it fails with 404. *)
Theorem currentPasswordChange_stores_hash :
  forall (C : Collaborators) (w : World) (req : Controller.PasswordRequest),
    (forall u,
        find (fun x => _id x =? Controller.pw_user req) (users w) = Some u ->
        isPasswordCorrect (Controller.oldPassword req) (password u) = true ->
        isPasswordCorrect (Controller.newPassword req) (password u) = false ->
        Controller.passwordRegex_test (Controller.newPassword req) = true ->
        let u' := UserModel.set_password (hashPassword (Controller.newPassword req)) u in
        Controller.currentPasswordChange req w
        = (Return (Controller.respond 200 (VObj []) "Password changed successfully"),
           mkWorld (UserModel.replace u' (users w)) (subscriptions w) (videos w) (now w)
                   (trace w ++ [DbWrite u']))
        /\ password u' = hashPassword (Controller.newPassword req)
        /\ refreshToken u' = refreshToken u
        /\ find (fun x => _id x =? Controller.pw_user req) (UserModel.replace u' (users w))
           = Some u')
    /\ (find (fun x => _id x =? Controller.pw_user req) (users w) = None ->
        Controller.currentPasswordChange req w
        = (Throw (ApiError 404 "User not found" None), w)).
Proof.
  intros C w req. split.
  - intros u Hu Hold Hnew Hre u'. split; [|split; [reflexivity|split; [reflexivity|]]].
    + now apply change_goes_through.
    + pose proof (find_id _ _ Hu) as Hid.
      rewrite <- Hid. change (_id u) with (_id u').
      apply find_replace with (x := u). change (_id u') with (_id u).
      now rewrite Hid.
  - intros Hu. unfold Controller.currentPasswordChange.
    erewrite bind_return by apply findById_run. now rewrite Hu.
Qed.

Lemma currentPasswordChange_stores_hash_witness :
  find (fun x => _id x =? 1) (users Demo.world) = Some Demo.alice
  /\ Controller.passwordRegex_test "NewSecret!22" = true
  /\ Controller.currentPasswordChange (C := Demo.collaborators)
       (Controller.mkPasswordRequest 1 "Secret#1" "NewSecret!22") Demo.world
     = (Return (Controller.respond 200 (VObj []) "Password changed successfully"),
        mkWorld (UserModel.replace
                   (UserModel.set_password "hash:NewSecret!22" Demo.alice)
                   (users Demo.world))
                (subscriptions Demo.world) (videos Demo.world) (now Demo.world)
                (trace Demo.world
                 ++ [DbWrite (UserModel.set_password "hash:NewSecret!22" Demo.alice)]))
  /\ Controller.currentPasswordChange (C := Demo.collaborators)
       (Controller.mkPasswordRequest 9 "Secret#1" "NewSecret!22") Demo.world
     = (Throw (ApiError 404 "User not found" None), Demo.world).
Proof.
  split; [reflexivity|]. split; [reflexivity|]. split.
  - apply (proj1 (@currentPasswordChange_stores_hash Demo.collaborators Demo.world
                    (Controller.mkPasswordRequest 1 "Secret#1" "NewSecret!22"))
                 Demo.alice); reflexivity.
  - apply (proj2 (@currentPasswordChange_stores_hash Demo.collaborators Demo.world
                    (Controller.mkPasswordRequest 9 "Secret#1" "NewSecret!22"))).
    reflexivity.
Defined.

(** ** Profile update, when it goes through *)

(** X12: [updateAccountDetails] with a username that another account bears
    fails with 400 "Username already exists. Try another one " and changes
    nothing, whatever the full name supplied. *)
Theorem updateAccountDetails_username_taken :
  forall (w : World) (req : Controller.DetailsRequest) (n : string) (other : User),
    Controller.det_username req = Some n ->
    n <> "" ->
    find (UserModel.matches (UserModel.ByUsername n)) (users w) = Some other ->
    _id other <> Controller.det_user req ->
    Controller.updateAccountDetails req w
    = (Throw (ApiError 400 "Username already exists. Try another one " None), w).
Proof.
  intros w req n other Hn Hne Hfind Hid. unfold Controller.updateAccountDetails.
  rewrite Hn, (truthy_nonempty Hne).
  erewrite bind_throw; [reflexivity|].
  erewrite bind_return by apply findOne_run. rewrite Hfind.
  apply Nat.eqb_neq in Hid. now rewrite Hid.
Qed.

Lemma updateAccountDetails_username_taken_witness :
  find (UserModel.matches (UserModel.ByUsername "BOB")) (users Demo.world) = Some Demo.bob
  /\ _id Demo.bob <> 1
  /\ Controller.updateAccountDetails
       (Controller.mkDetailsRequest 1 (Some "Alicia") (Some "BOB")) Demo.world
     = (Throw (ApiError 400 "Username already exists. Try another one " None),
        Demo.world).
Proof.
  assert (H : _id Demo.bob <> 1) by discriminate.
  split; [reflexivity|]. split; [exact H|].
  apply (@updateAccountDetails_username_taken Demo.world
           (Controller.mkDetailsRequest 1 (Some "Alicia") (Some "BOB")) "BOB" Demo.bob);
    try reflexivity; [discriminate | exact H].
Defined.

(** X13: for the caller's account, [updateAccountDetails] with a new,
    non-empty full name and no username answers 200 and changes the full
    name only; with neither field supplied it answers 200 as well and
    writes the account back as it was. *)
Theorem updateAccountDetails_partial :
  forall (w : World) (req : Controller.DetailsRequest) (u : User),
    find (fun x => _id x =? Controller.det_user req) (users w) = Some u ->
    Controller.det_username req = None ->
    (forall f,
        Controller.det_fullName req = Some f -> f <> "" -> f <> fullName u ->
        let u' := UserModel.apply (UserModel.SetFullName f) u in
        Controller.updateAccountDetails req w
        = (Return (Controller.respond 200 (VObj (userDoc u'))
                     "User account updated successfully"),
           mkWorld (UserModel.replace u' (users w)) (subscriptions w) (videos w) (now w)
                   (trace w ++ [DbWrite u']))
        /\ username u' = username u /\ email u' = email u
        /\ password u' = password u /\ refreshToken u' = refreshToken u)
    /\ (Controller.det_fullName req = None ->
        Controller.updateAccountDetails req w
        = (Return (Controller.respond 200 (VObj (userDoc u))
                     "User account updated successfully"),
           mkWorld (UserModel.replace u (users w)) (subscriptions w) (videos w) (now w)
                   (trace w ++ [DbWrite u]))).
Proof.
  intros w req u Hu Hname. split.
  - intros f Hf Hne Hdiff u'. split; [|repeat split].
    unfold Controller.updateAccountDetails. rewrite Hname, Hf.
    erewrite bind_return by reflexivity.
    erewrite bind_return by apply findById_run. rewrite Hu.
    cbn [Controller.strict_eq]. apply String.eqb_neq in Hdiff. rewrite Hdiff.
    cbn [orb]. erewrite bind_return by reflexivity.
    rewrite (truthy_nonempty Hne). cbn [app].
    erewrite bind_return;
      [|apply (findByIdAndUpdate_run _ [UserModel.SetFullName f] w Hu); reflexivity].
    reflexivity.
  - intros Hf. unfold Controller.updateAccountDetails. rewrite Hname, Hf.
    erewrite bind_return by reflexivity.
    erewrite bind_return by apply findById_run. rewrite Hu.
    cbn [Controller.strict_eq orb]. erewrite bind_return by reflexivity.
    cbn [app].
    erewrite bind_return;
      [|apply (findByIdAndUpdate_run _ [] w Hu); reflexivity].
    reflexivity.
Qed.

Lemma updateAccountDetails_partial_witness :
  find (fun x => _id x =? 1) (users Demo.world) = Some Demo.alice
  /\ Controller.updateAccountDetails
       (Controller.mkDetailsRequest 1 (Some "Alicia") None) Demo.world
     = (Return (Controller.respond 200
                  (VObj (userDoc (UserModel.apply (UserModel.SetFullName "Alicia")
                                                  Demo.alice)))
                  "User account updated successfully"),
        mkWorld (UserModel.replace (UserModel.apply (UserModel.SetFullName "Alicia")
                                                    Demo.alice) (users Demo.world))
                (subscriptions Demo.world) (videos Demo.world) (now Demo.world)
                (trace Demo.world
                 ++ [DbWrite (UserModel.apply (UserModel.SetFullName "Alicia")
                                              Demo.alice)]))
  /\ Controller.updateAccountDetails
       (Controller.mkDetailsRequest 1 None None) Demo.world
     = (Return (Controller.respond 200 (VObj (userDoc Demo.alice))
                  "User account updated successfully"),
        mkWorld (UserModel.replace Demo.alice (users Demo.world))
                (subscriptions Demo.world) (videos Demo.world) (now Demo.world)
                (trace Demo.world ++ [DbWrite Demo.alice])).
Proof.
  split; [reflexivity|]. split.
  - apply (proj1 (@updateAccountDetails_partial Demo.world
                    (Controller.mkDetailsRequest 1 (Some "Alicia") None) Demo.alice
                    eq_refl eq_refl) "Alicia"); [reflexivity | discriminate | discriminate].
  - apply (proj2 (@updateAccountDetails_partial Demo.world
                    (Controller.mkDetailsRequest 1 None None) Demo.alice
                    eq_refl eq_refl)). reflexivity.
Defined.

(** ** Avatar and cover image, the other paths *)

Section MediaAnswers.

Context {C : Collaborators}.

Variable w : World.
Variable req : Controller.FileRequest.
Variable u : User.
Variables path url : string.
Hypothesis caller :
  find (fun x => _id x =? Controller.file_user req) (users w) = Some u.
Hypothesis staged : Controller.file_path req = Some path.
Hypothesis staged_path : path <> "".
Hypothesis uploaded : cloudinary_upload path = Some url.
Hypothesis uploaded_url : url <> "".

Lemma updateAvatarFile_answer :
  fst (Controller.updateAvatarFile req w)
  = Return (Controller.respond 200
              (VObj (UserModel.select "-password"
                       (userDoc (UserModel.apply (UserModel.SetAvatar url) u))))
              "Avatar updated successfully").
Proof.
  unfold Controller.updateAvatarFile.
  erewrite bind_return by apply findById_run.
  rewrite caller, staged. cbn [Js.truthy_opt]. rewrite (truthy_nonempty staged_path).
  unfold Controller.uploadOnCloudinary.
  unfold bind at 1. unfold bind at 1. cbn [emit ret].
  rewrite uploaded. cbn [Js.truthy_opt]. rewrite (truthy_nonempty uploaded_url).
  destruct (Js.truthy (avatar u) && negb (avatar u =? url)%string);
    unfold Controller.deleteCloudinaryImage, UserModel.findByIdAndUpdate,
           UserModel.write, UserModel.findById, bind, emit, put_users, get_world, ret;
    cbn [users fst]; rewrite caller; cbn;
    rewrite String.eqb_refl; reflexivity.
Qed.

Lemma updateCoverImageFile_answer :
  fst (Controller.updateCoverImageFile req w)
  = Return (Controller.respond 200
              (VObj (UserModel.select "-password -refreshToken"
                       (userDoc (UserModel.apply (UserModel.SetCoverImage url) u))))
              "Cover image updated successfully").
Proof.
  unfold Controller.updateCoverImageFile.
  erewrite bind_return by apply findById_run.
  rewrite caller, staged. cbn [Js.truthy_opt]. rewrite (truthy_nonempty staged_path).
  unfold Controller.uploadOnCloudinary.
  unfold bind at 1. unfold bind at 1. cbn [emit ret].
  rewrite uploaded. cbn [Js.truthy_opt]. rewrite (truthy_nonempty uploaded_url).
  unfold Controller.deleteCloudinaryImage, UserModel.findByIdAndUpdate,
         UserModel.write, UserModel.findById, bind, emit, put_users, get_world, ret.
  cbn [users fst]. rewrite caller. cbn. rewrite String.eqb_refl.
  destruct (Js.truthy (coverImage u) && negb (coverImage u =? url)%string); reflexivity.
Qed.

End MediaAnswers.

(** X14: a successful [updateAvatarFile] answers with the updated account
    without its password hash but with its stored refresh token, if it has
    one; the answer of [updateCoverImageFile] carries neither. *)
Theorem media_answers_disclose :
  forall (C : Collaborators) (w : World) (req : Controller.FileRequest) (u : User)
         (path url : string),
    find (fun x => _id x =? Controller.file_user req) (users w) = Some u ->
    Controller.file_path req = Some path ->
    path <> "" ->
    cloudinary_upload path = Some url ->
    url <> "" ->
    (exists r,
        fst (Controller.updateAvatarFile req w) = Return r
        /\ status r = 200
        /\ body_field "avatar" r = VStr url
        /\ body_field "password" r = VUndefined
        /\ body_field "refreshToken" r
           = match refreshToken u with Some t => VStr t | None => VUndefined end)
    /\ (exists r,
           fst (Controller.updateCoverImageFile req w) = Return r
           /\ status r = 200
           /\ body_field "coverImage" r = VStr url
           /\ body_field "password" r = VUndefined
           /\ body_field "refreshToken" r = VUndefined).
Proof.
  intros C w req u path url Hu Hp Hp' Hup Hurl. split; eexists; split.
  - exact (updateAvatarFile_answer w req Hu Hp Hp' Hup Hurl).
  - unfold body_field, userDoc. cbn. destruct (refreshToken u); repeat split.
  - exact (updateCoverImageFile_answer w req Hu Hp Hp' Hup Hurl).
  - unfold body_field, userDoc. cbn. destruct (refreshToken u); repeat split.
Qed.

Lemma media_answers_disclose_witness :
  find (fun x => _id x =? 1) (users Demo.logged_in)
  = Some (UserModel.set_refreshToken "r.i" Demo.alice)
  /\ (exists r,
         fst (Controller.updateAvatarFile (C := Demo.collaborators)
                (Controller.mkFileRequest 1 (Some "new.png")) Demo.logged_in) = Return r
         /\ status r = 200
         /\ body_field "avatar" r = VStr "https://cdn/new.png"
         /\ body_field "password" r = VUndefined
         /\ body_field "refreshToken" r = VStr "r.i")
  /\ (exists r,
         fst (Controller.updateCoverImageFile (C := Demo.collaborators)
                (Controller.mkFileRequest 1 (Some "new.png")) Demo.logged_in) = Return r
         /\ status r = 200
         /\ body_field "coverImage" r = VStr "https://cdn/new.png"
         /\ body_field "password" r = VUndefined
         /\ body_field "refreshToken" r = VUndefined).
Proof.
  split; [reflexivity|].
  apply (@media_answers_disclose Demo.collaborators Demo.logged_in
           (Controller.mkFileRequest 1 (Some "new.png"))
           (UserModel.set_refreshToken "r.i" Demo.alice) "new.png" "https://cdn/new.png");
    try reflexivity; discriminate.
Defined.

(** X15: [updateAvatarFile] and [updateCoverImageFile] fail with 404 when
    the caller has no account and with 400 when no file is staged, the world
    unchanged and nothing uploaded; when the upload gives no reference they
    fail with 500 after the upload, the accounts unchanged and nothing
    deleted. *)
Theorem media_failures :
  forall (C : Collaborators) (w : World) (req : Controller.FileRequest),
    (find (fun x => _id x =? Controller.file_user req) (users w) = None ->
     Controller.updateAvatarFile req w = (Throw (ApiError 404 "User not found" None), w)
     /\ Controller.updateCoverImageFile req w
        = (Throw (ApiError 404 "User not found" None), w))
    /\ (forall u,
          find (fun x => _id x =? Controller.file_user req) (users w) = Some u ->
          Js.truthy_opt (Controller.file_path req) = false ->
          Controller.updateAvatarFile req w
          = (Throw (ApiError 400 "Avatar file is missing" None), w)
          /\ Controller.updateCoverImageFile req w
             = (Throw (ApiError 400 "Cover image file is missing" None), w))
    /\ (forall u path,
          find (fun x => _id x =? Controller.file_user req) (users w) = Some u ->
          Controller.file_path req = Some path ->
          path <> "" ->
          Js.truthy_opt (cloudinary_upload path) = false ->
          let w' := mkWorld (users w) (subscriptions w) (videos w) (now w)
                            (trace w ++ [Uploaded path]) in
          Controller.updateAvatarFile req w
          = (Throw (ApiError 500 "Failed to upload avatar to Cloudinary" None), w')
          /\ Controller.updateCoverImageFile req w
             = (Throw (ApiError 500 "Failed to upload cover image to Cloudinary" None), w')).
Proof.
  intros C w req. unfold Controller.updateAvatarFile, Controller.updateCoverImageFile.
  split; [|split].
  - intros Hu. split; (erewrite bind_return by apply findById_run); now rewrite Hu.
  - intros u Hu Hf.
    split; (erewrite bind_return by apply findById_run); now rewrite Hu, Hf.
  - intros u path Hu Hp Hne Hup. cbv zeta.
    split; (erewrite bind_return by apply findById_run);
      rewrite Hu, Hp; cbn [Js.truthy_opt]; rewrite (truthy_nonempty Hne);
      unfold Controller.uploadOnCloudinary, bind, emit, ret; now rewrite Hup.
Qed.

Lemma media_failures_witness :
  (Controller.updateAvatarFile (C := Demo.collaborators)
     (Controller.mkFileRequest 9 (Some "new.png")) Demo.world
   = (Throw (ApiError 404 "User not found" None), Demo.world)
   /\ Controller.updateCoverImageFile (C := Demo.collaborators)
        (Controller.mkFileRequest 9 (Some "new.png")) Demo.world
      = (Throw (ApiError 404 "User not found" None), Demo.world))
  /\ (Controller.updateAvatarFile (C := Demo.collaborators)
        (Controller.mkFileRequest 1 None) Demo.world
      = (Throw (ApiError 400 "Avatar file is missing" None), Demo.world)
      /\ Controller.updateCoverImageFile (C := Demo.collaborators)
           (Controller.mkFileRequest 1 None) Demo.world
         = (Throw (ApiError 400 "Cover image file is missing" None), Demo.world))
  /\ (Controller.updateAvatarFile (C := offline)
        (Controller.mkFileRequest 1 (Some "new.png")) Demo.world
      = (Throw (ApiError 500 "Failed to upload avatar to Cloudinary" None),
         mkWorld (users Demo.world) (subscriptions Demo.world) (videos Demo.world)
                 (now Demo.world) (trace Demo.world ++ [Uploaded "new.png"]))
      /\ Controller.updateCoverImageFile (C := offline)
           (Controller.mkFileRequest 1 (Some "new.png")) Demo.world
         = (Throw (ApiError 500 "Failed to upload cover image to Cloudinary" None),
            mkWorld (users Demo.world) (subscriptions Demo.world) (videos Demo.world)
                    (now Demo.world) (trace Demo.world ++ [Uploaded "new.png"]))).
Proof.
  split; [|split].
  - apply (proj1 (@media_failures Demo.collaborators Demo.world
                    (Controller.mkFileRequest 9 (Some "new.png")))). reflexivity.
  - apply (proj1 (proj2 (@media_failures Demo.collaborators Demo.world
                           (Controller.mkFileRequest 1 None))) Demo.alice); reflexivity.
  - apply (proj2 (proj2 (@media_failures offline Demo.world
                           (Controller.mkFileRequest 1 (Some "new.png"))))
                 Demo.alice "new.png"); [reflexivity | reflexivity | discriminate | reflexivity].
Defined.



(** X17: on a successful [updateAvatarFile] the previous avatar is deleted
    from the object storage exactly when it existed and differs from the new
    reference, and nothing else is ever deleted. *)
Theorem updateAvatarFile_deletes_only_stale :
  forall (C : Collaborators) (w : World) (req : Controller.FileRequest) (u : User)
         (path url : string),
    find (fun x => _id x =? Controller.file_user req) (users w) = Some u ->
    Controller.file_path req = Some path ->
    path <> "" ->
    cloudinary_upload path = Some url ->
    url <> "" ->
    exists r w' events,
      Controller.updateAvatarFile req w = (Return r, w')
      /\ trace w' = trace w ++ events
      /\ (In (Deleted (avatar u)) events <-> avatar u <> "" /\ avatar u <> url)
      /\ (forall x, In (Deleted x) events -> x = avatar u).
Proof.
  intros C w req u path url Hu Hp Hp' Hup Hurl.
  eapply updateAvatarFile_deletes_iff; eassumption.
Qed.

Lemma updateAvatarFile_deletes_only_stale_witness :
  find (fun x => _id x =? 1) (users Demo.world) = Some Demo.alice
  /\ cloudinary_upload (Collaborators := Demo.collaborators) "a.png"
     = Some "https://cdn/a.png"
  /\ avatar Demo.alice = "https://cdn/a.png"
  /\ exists r w' events,
      Controller.updateAvatarFile (C := Demo.collaborators)
        (Controller.mkFileRequest 1 (Some "a.png")) Demo.world = (Return r, w')
      /\ trace w' = trace Demo.world ++ events
      /\ (In (Deleted (avatar Demo.alice)) events
          <-> avatar Demo.alice <> "" /\ avatar Demo.alice <> "https://cdn/a.png")
      /\ (forall x, In (Deleted x) events -> x = avatar Demo.alice).
Proof.
  split; [reflexivity|]. split; [reflexivity|]. split; [reflexivity|].
  apply (@updateAvatarFile_deletes_only_stale Demo.collaborators Demo.world
           (Controller.mkFileRequest 1 (Some "a.png")) Demo.alice
           "a.png" "https://cdn/a.png");
    try reflexivity; discriminate.
Defined.

(** ** What no handler does to the store *)

Lemma extends_refl (w : World) : extends w w.
Proof.
  repeat split. exists []. now rewrite app_nil_r.
Qed.

Lemma extends_trans (a b c : World) : extends a b -> extends b c -> extends a c.
Proof.
  intros (U1 & S1 & V1 & N1 & e1 & T1) (U2 & S2 & V2 & N2 & e2 & T2).
  repeat split; try congruence.
  exists (e1 ++ e2). now rewrite T2, T1, app_assoc.
Qed.

Lemma stable_ret {A} (a : A) : stable (ret a).
Proof. intros w. apply extends_refl. Qed.

Lemma stable_throw {A} (e : exn) : stable (@throw A e).
Proof. intros w. apply extends_refl. Qed.

Lemma stable_bind {A B} (m : M A) (k : A -> M B) :
  stable m -> (forall a, stable (k a)) -> stable (bind m k).
Proof.
  intros Hm Hk w. unfold bind. specialize (Hm w).
  destruct (m w) as [[a|e] w1]; simpl in *; [|assumption].
  eapply extends_trans; [exact Hm | apply Hk].
Qed.

Lemma stable_try_catch {A} (m : M A) (h : exn -> M A) :
  stable m -> (forall e, stable (h e)) -> stable (try_catch m h).
Proof.
  intros Hm Hh w. unfold try_catch. specialize (Hm w).
  destruct (m w) as [[a|e] w1]; simpl in *; [assumption|].
  eapply extends_trans; [exact Hm | apply Hh].
Qed.

Lemma stable_get_world : stable get_world.
Proof. intros w. apply extends_refl. Qed.

Lemma stable_emit (e : event) : stable (emit e).
Proof. intros w. repeat split. now exists [e]. Qed.

Lemma stable_throw_if (c : bool) (code : nat) (msg : string) :
  stable (throw_if c code msg).
Proof. destruct c; [apply stable_throw | apply stable_ret]. Qed.

Lemma stable_findById (id : ObjectId) : stable (UserModel.findById id).
Proof. intros w. apply extends_refl. Qed.

Lemma stable_findOne (q : UserModel.query) : stable (UserModel.findOne q).
Proof. intros w. apply extends_refl. Qed.

Lemma stable_aggregate (p : list Agg.stage) : stable (UserModel.aggregate p).
Proof.
  intros w. unfold UserModel.aggregate.
  destruct (Agg.run_pipeline _ _ _); apply extends_refl.
Qed.

(** A write puts a document in the place of those that bear its
    identifier: the identifiers of the collection stay as they are. *)
Lemma stable_write (u : User) : stable (UserModel.write u).
Proof.
  intros w. unfold UserModel.write, bind, get_world, put_users, emit. simpl.
  repeat split; [apply replace_ids | now exists [DbWrite u]].
Qed.

Lemma stable_findByIdAndUpdate (id : ObjectId) (ups : list UserModel.update) :
  stable (UserModel.findByIdAndUpdate id ups).
Proof.
  unfold UserModel.findByIdAndUpdate.
  apply stable_bind; [apply stable_findById|]. intros [u|]; [|apply stable_ret].
  apply stable_bind; [apply stable_get_world|]. intros w.
  destruct (_ && _); [apply stable_throw|].
  apply stable_bind; [apply stable_write | intros; apply stable_ret].
Qed.

Ltac stable_step :=
  first
    [ apply stable_ret
    | apply stable_throw
    | apply stable_throw_if
    | apply stable_get_world
    | apply stable_emit
    | apply stable_findById
    | apply stable_findOne
    | apply stable_aggregate
    | apply stable_write
    | apply stable_findByIdAndUpdate
    | apply stable_bind; [|intros]
    | apply stable_try_catch; [|intros]
    | match goal with
      | |- stable (match ?x with _ => _ end) => destruct x
      | |- stable (if ?b then _ else _) => destruct b
      end ].

Ltac stable_auto :=
  cbv zeta;
  unfold throwApi, Controller.uploadOnCloudinary, Controller.deleteCloudinaryImage,
         UserModel.save;
  repeat stable_step.

Section Stable.

Context {C : Collaborators}.

Lemma stable_genarate (id : ObjectId) :
  stable (Controller.genarateAccessTokenAndRefreshToken id).
Proof. unfold Controller.genarateAccessTokenAndRefreshToken. stable_auto. Qed.

Lemma stable_loginUser (req : Controller.LoginRequest) :
  stable (Controller.loginUser req).
Proof.
  unfold Controller.loginUser. stable_auto; try apply stable_genarate; stable_auto.
Qed.

Lemma stable_refreshAccessToken (scope : list string) (req : Controller.RefreshRequest) :
  stable (Controller.refreshAccessToken_in scope req).
Proof.
  unfold Controller.refreshAccessToken_in, Controller.identifier.
  stable_auto; try apply stable_genarate; stable_auto.
Qed.

Lemma stable_currentPasswordChange (req : Controller.PasswordRequest) :
  stable (Controller.currentPasswordChange req).
Proof. unfold Controller.currentPasswordChange. stable_auto. Qed.

Lemma stable_updateAvatarFile (req : Controller.FileRequest) :
  stable (Controller.updateAvatarFile req).
Proof. unfold Controller.updateAvatarFile. stable_auto. Qed.

Lemma stable_updateCoverImageFile (req : Controller.FileRequest) :
  stable (Controller.updateCoverImageFile req).
Proof. unfold Controller.updateCoverImageFile. stable_auto. Qed.

End Stable.

Lemma stable_logoutUser (id : ObjectId) : stable (Controller.logoutUser id).
Proof. unfold Controller.logoutUser. stable_auto. Qed.

Lemma stable_getCurrentUser (id : ObjectId) : stable (Controller.getCurrentUser id).
Proof. unfold Controller.getCurrentUser. stable_auto. Qed.

Lemma stable_updateAccountDetails (req : Controller.DetailsRequest) :
  stable (Controller.updateAccountDetails req).
Proof. unfold Controller.updateAccountDetails. stable_auto. Qed.

Lemma stable_getUserChannelProfile (req : Controller.ChannelRequest) :
  stable (Controller.getUserChannelProfile req).
Proof. unfold Controller.getUserChannelProfile. stable_auto. Qed.

Lemma stable_getWatchHistory (id : ObjectId) : stable (Controller.getWatchHistory id).
Proof. unfold Controller.getWatchHistory. stable_auto. Qed.

(** X18: whatever the request and whether it succeeds or fails, no handler
    but [registerUser] adds, removes or reorders accounts: the identifiers
    of the users collection stay as they are, the subscriptions, the videos
    and the clock are untouched, and the trace of effects only grows. *)
Theorem handlers_keep_the_accounts :
  forall (C : Collaborators) (w : World),
    (forall req, extends w (snd (Controller.loginUser req w)))
    /\ (forall id, extends w (snd (Controller.logoutUser id w)))
    /\ (forall req, extends w (snd (Controller.refreshAccessToken req w)))
    /\ (forall req, extends w (snd (Controller.currentPasswordChange req w)))
    /\ (forall id, extends w (snd (Controller.getCurrentUser id w)))
    /\ (forall req, extends w (snd (Controller.updateAccountDetails req w)))
    /\ (forall req, extends w (snd (Controller.updateAvatarFile req w)))
    /\ (forall req, extends w (snd (Controller.updateCoverImageFile req w)))
    /\ (forall req, extends w (snd (Controller.getUserChannelProfile req w)))
    /\ (forall id, extends w (snd (Controller.getWatchHistory id w))).
Proof.
  intros C w. repeat match goal with |- _ /\ _ => split end; intros x.
  - apply stable_loginUser.
  - apply stable_logoutUser.
  - apply (stable_refreshAccessToken Controller.module_bindings).
  - apply stable_currentPasswordChange.
  - apply stable_getCurrentUser.
  - apply stable_updateAccountDetails.
  - apply stable_updateAvatarFile.
  - apply stable_updateCoverImageFile.
  - apply stable_getUserChannelProfile.
  - apply stable_getWatchHistory.
Qed.

(** ** Tokens *)

(** X19: [genarateAccessTokenAndRefreshToken] fails with 500, the world
    unchanged, when no account bears the identifier (the error of reading a
    token off [null] is caught and rethrown); otherwise it answers with the
    two tokens signed for the account at the current time and stores the
    refresh token on it, no other field of the account changing. *)
Theorem genarate_tokens :
  forall (C : Collaborators) (id : ObjectId) (w : World),
    (find (fun x => _id x =? id) (users w) = None ->
     Controller.genarateAccessTokenAndRefreshToken id w
     = (Throw (ApiError 500
                 "Something went wrong for generate Access token or Refresh token" None),
        w))
    /\ (forall u,
          find (fun x => _id x =? id) (users w) = Some u ->
          exists tokens w' u',
            Controller.genarateAccessTokenAndRefreshToken id w = (Return tokens, w')
            /\ tokens = [ ("accessToken", VStr (generateAccessToken u (now w)));
                          ("refreshToken", VStr (generateRefreshToken u (now w))) ]
            /\ find (fun x => _id x =? id) (users w') = Some u'
            /\ refreshToken u' = Some (generateRefreshToken u (now w))
            /\ UserModel.set_refreshToken (generateRefreshToken u (now w)) u = u'
            /\ password u' = password u /\ username u' = username u
            /\ email u' = email u).
Proof.
  intros C id w. split.
  - apply genarate_absent.
  - intros u Hu. do 3 eexists. split; [apply genarate_run; exact Hu|].
    split; [reflexivity|]. split.
    + cbn [users]. pose proof (find_id _ _ Hu) as Hid. rewrite <- Hid.
      change (_id u)
        with (_id (UserModel.set_refreshToken (generateRefreshToken u (now w)) u)).
      apply find_replace with (x := u).
      change (_id (UserModel.set_refreshToken (generateRefreshToken u (now w)) u))
        with (_id u).
      now rewrite Hid.
    + repeat split.
Qed.

Lemma genarate_tokens_witness :
  find (fun x => _id x =? 9) (users Demo.world) = None
  /\ find (fun x => _id x =? 2) (users Demo.world) = Some Demo.bob
  /\ Controller.genarateAccessTokenAndRefreshToken (C := Demo.collaborators) 9 Demo.world
     = (Throw (ApiError 500
                 "Something went wrong for generate Access token or Refresh token" None),
        Demo.world)
  /\ exists tokens w' u',
      Controller.genarateAccessTokenAndRefreshToken (C := Demo.collaborators) 2 Demo.world
      = (Return tokens, w')
      /\ tokens = [ ("accessToken", VStr "a.ii"); ("refreshToken", VStr "r.ii") ]
      /\ find (fun x => _id x =? 2) (users w') = Some u'
      /\ refreshToken u' = Some "r.ii"
      /\ UserModel.set_refreshToken "r.ii" Demo.bob = u'
      /\ password u' = password Demo.bob /\ username u' = username Demo.bob
      /\ email u' = email Demo.bob.
Proof.
  split; [reflexivity|]. split; [reflexivity|]. split.
  - apply (proj1 (@genarate_tokens Demo.collaborators 9 Demo.world)). reflexivity.
  - apply (proj2 (@genarate_tokens Demo.collaborators 2 Demo.world) Demo.bob). reflexivity.
Defined.

(** X20: [refreshAccessToken] takes the token of the cookie, or that of the
    body when the cookie has none; with neither it fails with 401
    "Unauthorized request", and with a token it fails with 401 as well, on
    the unbound name [jwt]: no request makes it change the world. *)
Theorem refreshAccessToken_unauthorized :
  forall (C : Collaborators) (req : Controller.RefreshRequest) (w : World),
    (Js.truthy_opt (Controller.cookies_refreshToken req) = false ->
     Js.truthy_opt (Controller.body_refreshToken req) = false ->
     Controller.refreshAccessToken req w
     = (Throw (ApiError 401 "Unauthorized request" None), w))
    /\ (Js.truthy_opt (Controller.cookies_refreshToken req) = true
        \/ Js.truthy_opt (Controller.body_refreshToken req) = true ->
        Controller.refreshAccessToken req w
        = (Throw (ApiError 401 "jwt is not defined" None), w)).
Proof.
  intros C req w. split.
  - intros Hc Hb. unfold Controller.refreshAccessToken, Controller.refreshAccessToken_in,
                    Controller.js_or.
    rewrite Hc, Hb. reflexivity.
  - intros H. apply refreshAccessToken_message. unfold Controller.js_or.
    destruct (Js.truthy_opt (Controller.cookies_refreshToken req)) eqn:Hc;
      [exact Hc|]. destruct H; [discriminate | assumption].
Qed.

Lemma refreshAccessToken_unauthorized_witness :
  Controller.refreshAccessToken (C := Demo.collaborators)
    (Controller.mkRefreshRequest None (Some "")) Demo.world
  = (Throw (ApiError 401 "Unauthorized request" None), Demo.world)
  /\ Controller.refreshAccessToken (C := Demo.collaborators)
       (Controller.mkRefreshRequest None (Some "r.i")) Demo.logged_in
     = (Throw (ApiError 401 "jwt is not defined" None), Demo.logged_in).
Proof.
  split.
  - apply (proj1 (@refreshAccessToken_unauthorized Demo.collaborators
                    (Controller.mkRefreshRequest None (Some "")) Demo.world));
      reflexivity.
  - apply (proj2 (@refreshAccessToken_unauthorized Demo.collaborators
                    (Controller.mkRefreshRequest None (Some "r.i")) Demo.logged_in)).
    right. reflexivity.
Defined.

(** ** Password change, then login *)

Lemma find_replace_first (p : User -> bool) (u u' : User) (us : list User) :
  find p us = Some u ->
  find (fun x => _id x =? _id u) us = Some u ->
  p u' = true ->
  _id u' = _id u ->
  find p (UserModel.replace u' us) = Some u'.
Proof.
  intros Hp Hid Hu' Hsame. induction us as [|y us IH]; simpl in *; [discriminate|].
  rewrite Hsame. destruct (_id y =? _id u) eqn:E.
  - now rewrite Hu'.
  - destruct (p y) eqn:Py.
    + inversion Hp; subst y. now rewrite Nat.eqb_refl in E.
    + now apply IH.
Qed.

(** X21: password change and login compose.  After a password change that
    went through for the account a login email designates, a login with the
    new password answers 200 as soon as the password check accepts the new
    password against its own hash, and a login with a password that the
    check refuses against that hash fails with 401. *)
Theorem change_password_then_login :
  forall (C : Collaborators) (w : World) (req : Controller.PasswordRequest)
         (u : User) (mail guess : string),
    find (fun x => _id x =? Controller.pw_user req) (users w) = Some u ->
    isPasswordCorrect (Controller.oldPassword req) (password u) = true ->
    isPasswordCorrect (Controller.newPassword req) (password u) = false ->
    Controller.passwordRegex_test (Controller.newPassword req) = true ->
    mail <> "" ->
    find (UserModel.matches (UserModel.ByEmail (Js.toLowerCase mail))) (users w) = Some u ->
    isPasswordCorrect (Controller.newPassword req)
                      (hashPassword (Controller.newPassword req)) = true ->
    isPasswordCorrect guess (hashPassword (Controller.newPassword req)) = false ->
    exists r1 w1,
      Controller.currentPasswordChange req w = (Return r1, w1)
      /\ (exists r2 w2,
             Controller.loginUser
               (Controller.mkLoginRequest (Some mail) (Controller.newPassword req)) w1
             = (Return r2, w2) /\ status r2 = 200)
      /\ Controller.loginUser (Controller.mkLoginRequest (Some mail) guess) w1
         = (Throw (ApiError 401 "Invalid user credentials" None), w1).
Proof.
  intros C w req u mail guess Hu Hold Hnew Hre Hmail Hfind Hok Hko.
  pose proof (find_id _ _ Hu) as Hid.
  set (u' := UserModel.set_password (hashPassword (Controller.newPassword req)) u).
  set (w1 := mkWorld (UserModel.replace u' (users w)) (subscriptions w) (videos w) (now w)
                     (trace w ++ [DbWrite u'])).
  assert (Hu0 : find (fun x => _id x =? _id u) (users w) = Some u) by now rewrite Hid.
  assert (Hfind1 : find (UserModel.matches (UserModel.ByEmail (Js.toLowerCase mail)))
                        (users w1) = Some u').
  { cbn [users w1]. apply find_replace_first with (u := u); try assumption.
    - apply find_some in Hfind. exact (proj2 Hfind).
    - reflexivity. }
  assert (Hid1 : find (fun x => _id x =? _id u') (users w1) = Some u').
  { cbn [users w1]. apply find_replace with (x := u). exact Hu0. }
  exists (Controller.respond 200 (VObj []) "Password changed successfully"), w1.
  split; [|split].
  - apply change_goes_through; assumption.
  - pose proof (@loginUser_run C
                  (Controller.mkLoginRequest (Some mail) (Controller.newPassword req))
                  w1 mail u' eq_refl Hmail Hfind1 Hid1 Hok) as H.
    cbv zeta in H. do 2 eexists. split; [exact H | reflexivity].
  - unfold Controller.loginUser. cbn [Controller.login_email Controller.login_password].
    rewrite (truthy_nonempty Hmail).
    erewrite bind_return by apply findOne_run. rewrite Hfind1.
    change (password u') with (hashPassword (Controller.newPassword req)).
    now rewrite Hko.
Qed.

Lemma change_password_then_login_witness :
  find (fun x => _id x =? 1) (users Demo.world) = Some Demo.alice
  /\ find (UserModel.matches (UserModel.ByEmail (Js.toLowerCase "Alice@x.org")))
          (users Demo.world) = Some Demo.alice
  /\ exists r1 w1,
      Controller.currentPasswordChange (C := Demo.collaborators)
        (Controller.mkPasswordRequest 1 "Secret#1" "NewSecret!22") Demo.world
      = (Return r1, w1)
      /\ (exists r2 w2,
             Controller.loginUser (C := Demo.collaborators)
               (Controller.mkLoginRequest (Some "Alice@x.org") "NewSecret!22") w1
             = (Return r2, w2) /\ status r2 = 200)
      /\ Controller.loginUser (C := Demo.collaborators)
           (Controller.mkLoginRequest (Some "Alice@x.org") "Secret#1") w1
         = (Throw (ApiError 401 "Invalid user credentials" None), w1).
Proof.
  split; [reflexivity|]. split; [reflexivity|].
  apply (@change_password_then_login Demo.collaborators Demo.world
           (Controller.mkPasswordRequest 1 "Secret#1" "NewSecret!22")
           Demo.alice "Alice@x.org" "Secret#1");
    try reflexivity; discriminate.
Defined.
